(** * Volatility-Forecaster: a shallow embedding of the returns pipeline,
      the GARCH wrapper and the residual diagnostics.

    Sources: [src/data_utils.py] ([DataProcessor.calculate_returns]) and
    [src/python_app/garch_models.py] ([GARCHModel]).

    Numbers: a float64 is a real number [R] or one of NaN and the two
    infinities; rounding and overflow are not modelled. Third-party code
    (the [arch] package, [scipy.stats.chi2], LAPACK's solver) is not part
    of this repository; it enters as explicit parameters. *)

From Stdlib Require Import String.
From Stdlib Require Import List Bool Arith Lia.
From Stdlib Require Import QArith Qabs.
From Stdlib Require Import Reals Lra.
From Stdlib Require Import Sorted.
Import ListNotations.

(* ------------------------------------------------------------------ *)
(** ** Python exceptions and the module's [try ... except] idiom *)

Module Py.

(** The exceptions raised on the paths we model. *)
Inductive py_exc : Type :=
| ValueError (msg : string)
| IndexError
| AttributeError (msg : string)
| LinAlgError
| ZeroDivision (msg : string).

(** A computation that may raise. *)
Definition PyM (A : Type) : Type := (py_exc + A)%type.

Definition ret {A : Type} (a : A) : PyM A := inr a.
Definition raise {A : Type} (e : py_exc) : PyM A := inl e.
Definition bind {A B : Type} (m : PyM A) (k : A -> PyM B) : PyM B :=
  match m with inl e => inl e | inr a => k a end.

Notation "x <- m ;; k" := (bind m (fun x => k))
  (at level 61, m at next level, right associativity).

Definition exc_str (e : py_exc) : string :=
  match e with
  | ValueError m => m
  | IndexError => "single positional indexer is out-of-bounds"
  | AttributeError m => m
  | LinAlgError => "Singular matrix"
  | ZeroDivision m => m
  end.

(** [try: body  except Exception as e: print(prefix + str(e)); return None]:
    the printed lines and the value handed back to the caller. *)
Definition try_print {A : Type} (prefix : string) (m : PyM A)
  : list string * option A :=
  match m with
  | inl e => ([(prefix ++ exc_str e)%string], None)
  | inr a => ([], Some a)
  end.

End Py.
Import Py.

(* ------------------------------------------------------------------ *)
(** ** [DataProcessor.calculate_returns] (src/data_utils.py) *)

Module Returns.
Local Open Scope R_scope.

(** A float64 value: finite, NaN or an infinity (zero is taken as +0). *)
Inductive fl : Type :=
| Fin (r : R)
| NaN
| PInf
| NInf.

Definition is_nan (x : fl) : bool :=
  match x with NaN => true | _ => false end.

(** IEEE division (no exception is raised by numpy/pandas). *)
Definition fdiv (a b : fl) : fl :=
  match a, b with
  | Fin x, Fin y =>
      if Req_EM_T y 0 then
        (if Req_EM_T x 0 then NaN else if Rlt_dec 0 x then PInf else NInf)
      else Fin (x / y)
  | Fin _, PInf | Fin _, NInf => Fin 0
  | PInf, Fin y => if Rlt_dec y 0 then NInf else PInf
  | NInf, Fin y => if Rlt_dec y 0 then PInf else NInf
  | _, _ => NaN
  end.

(** [np.log]: NaN below zero, -inf at zero (a warning, not an error). *)
Definition flog (a : fl) : fl :=
  match a with
  | Fin x => if Rlt_dec 0 x then Fin (ln x) else if Req_EM_T x 0 then NInf else NaN
  | PInf => PInf
  | NInf => NaN
  | NaN => NaN
  end.

Definition fsub1 (a : fl) : fl :=
  match a with Fin x => Fin (x - 1) | other => other end.

(** A pandas Series: (index, value) pairs in order. *)
Definition series : Type := list (nat * fl).

(** The input DataFrame: named columns over the positional index 0..n-1. *)
Definition frame : Type := list (string * list fl).

(** The DataFrame built by [pd.DataFrame({...})]: named Series. *)
Definition out_frame : Type := list (string * series).

Definition to_series (vs : list fl) : series := combine (seq 0%nat (List.length vs)) vs.

Definition values (s : series) : list fl := map snd s.

(** [s.shift(1)]: values move one place later, the index stays, NaN enters. *)
Definition shift1 (s : series) : series :=
  combine (map fst s) (NaN :: removelast (values s)).

(** Element-wise operation of two Series on the same index. *)
Definition zip_with (f : fl -> fl -> fl) (s t : series) : series :=
  map (fun p => (fst (fst p), f (snd (fst p)) (snd (snd p)))) (combine s t).

Definition dropna (s : series) : series :=
  filter (fun p => negb (is_nan (snd p))) s.

Fixpoint assoc_idx (i : nat) (s : series) : option fl :=
  match s with
  | [] => None
  | (j, v) :: t => if Nat.eqb i j then Some v else assoc_idx i t
  end.

Definition has_idx (i : nat) (s : series) : bool :=
  match assoc_idx i s with Some _ => true | None => false end.

(** Index alignment of [pd.DataFrame] from a dict of Series: the sorted union
    of the indexes, missing entries filled with NaN. *)
Definition index_bound (cols : list series) : nat :=
  S (fold_right Nat.max 0%nat (map fst (concat cols))).

Definition index_union (cols : list series) : list nat :=
  filter (fun i => existsb (has_idx i) cols) (seq 0%nat (index_bound cols)).

Definition reindex (idx : list nat) (s : series) : series :=
  map (fun i => (i, match assoc_idx i s with Some v => v | None => NaN end)) idx.

Definition frame_of_dict (d : list (string * series)) : out_frame :=
  let idx := index_union (map snd d) in
  map (fun c => (fst c, reindex idx (snd c))) d.

Definition col_lookup {A : Type} (name : string) (df : list (string * A)) : option A :=
  match find (fun c => String.eqb (fst c) name) df with
  | Some c => Some (snd c)
  | None => None
  end.

Definition last_col (df : frame) : option (list fl) :=
  match rev df with c :: _ => Some (snd c) | [] => None end.

(** Lines 76-82: the price column. *)
Definition select_prices (price_data : frame) : PyM (list fl) :=
  match col_lookup "Adj Close"%string price_data with
  | Some s => ret s
  | None =>
      match col_lookup "Close"%string price_data with
      | Some s => ret s
      | None =>
          match last_col price_data with
          | Some s => ret s
          | None => raise IndexError
          end
      end
  end.

(** Lines 84-98 from the selected prices: log returns, simple returns
    (pandas' forward fill inside [pct_change] is not modelled) and prices. *)
Definition returns_frame (vs : list fl) : out_frame :=
  let prices := to_series vs in
  let log_returns := dropna (zip_with (fun a b => flog (fdiv a b)) prices (shift1 prices)) in
  let simple_returns := dropna (map (fun p => (fst p, fsub1 (snd p)))
                                    (zip_with fdiv prices (shift1 prices))) in
  frame_of_dict [("log_returns"%string, log_returns);
                 ("simple_returns"%string, skipn 1 simple_returns);
                 ("price"%string, skipn 1 prices)].

Definition calculate_returns_body (price_data : frame) : PyM out_frame :=
  prices <- select_prices price_data;;
  ret (returns_frame prices).

Definition calculate_returns (price_data : frame) : list string * option out_frame :=
  try_print "Error calculating returns: "%string (calculate_returns_body price_data).

End Returns.

(* ------------------------------------------------------------------ *)
(** ** [GARCHModel] (src/python_app/garch_models.py) *)

Module Garch.
Import Returns.
Local Open Scope R_scope.

(** The object built by [arch_model(y, vol='GARCH', p=p, q=q, dist=dist)]. *)
Record ArchModel : Type := {
  am_y : list fl;
  am_p : nat;
  am_q : nat;
  am_dist : string
}.

(** The attributes of an [arch] fit result that the module reads. *)
Record ArchResult : Type := {
  params : list (string * R);
  resid : list R;
  conditional_volatility : list R;
  loglikelihood : R;
  aic : R;
  bic : R;
  nobs : nat
}.

(** The third-party [arch] package, as far as the module calls it:
    the model constructor, [model.fit(disp='off', show_warning=False)] and
    [model_fit.forecast(horizon=h, method='simulation', simulations=1000)
    .variance.values[-1, :]]. Each may raise. *)
Record ArchLib : Type := {
  arch_model : list fl -> nat -> nat -> string -> PyM ArchModel;
  arch_fit : ArchModel -> PyM ArchResult;
  arch_forecast_variance : ArchResult -> nat -> PyM (list R)
}.

(** The instance attributes [self.model] and [self.fitted_model]. *)
Record GARCHModel : Type := {
  model : option ArchModel;
  fitted_model : option ArchResult
}.

Definition GARCHModel_init : GARCHModel := {| model := None; fitted_model := None |}.

(** [returns_clean * 100] on a float. *)
Definition fmul100 (x : fl) : fl :=
  match x with Fin r => Fin (r * 100) | other => other end.

Definition insufficient_msg : string :=
  "Insufficient data for GARCH modeling (minimum 50 observations required)".

(** Lines 41-64: the body of [fit_garch], with the attribute writes. *)
Definition fit_garch_body (lib : ArchLib) (returns : list fl) (p q : nat) (dist : string)
  (self : GARCHModel) : GARCHModel * PyM ArchResult :=
  let returns_clean := filter (fun x => negb (is_nan x)) returns in
  if (List.length returns_clean <? 50)%nat then
    (self, raise (ValueError insufficient_msg))
  else
    let returns_scaled := map fmul100 returns_clean in
    match arch_model lib returns_scaled p q dist with
    | inl e => (self, inl e)
    | inr m =>
        let self1 := {| model := Some m; fitted_model := fitted_model self |} in
        match arch_fit lib m with
        | inl e => (self1, inl e)
        | inr f => ({| model := Some m; fitted_model := Some f |}, inr f)
        end
    end.

Definition fit_garch (lib : ArchLib) (returns : list fl) (p q : nat) (dist : string)
  (self : GARCHModel) : GARCHModel * (list string * option ArchResult) :=
  let r := fit_garch_body lib returns p q dist self in
  (fst r, try_print "Error fitting GARCH model: " (snd r)).

(** An argument that may be Python's [None] (a failed fit). *)
Definition attr {A : Type} (name : string) (o : option A) : PyM A :=
  match o with
  | Some a => ret a
  | None => raise (AttributeError ("'NoneType' object has no attribute '" ++ name ++ "'"))
  end.

Record Forecast : Type := {
  volatility_forecast : list R;
  variance_forecast : list R;
  forecast_horizon : nat
}.

(** Lines 85-103. *)
Definition forecast_volatility_body (lib : ArchLib) (model_fit : option ArchResult)
  (horizon : nat) : PyM Forecast :=
  f <- attr "forecast" model_fit;;
  variance_forecast <- arch_forecast_variance lib f horizon;;
  let volatility_forecast := map sqrt variance_forecast in
  let volatility_forecast := map (fun v => v / 100) volatility_forecast in
  let variance_forecast := map (fun v => v / 10000) variance_forecast in
  ret {| volatility_forecast := volatility_forecast;
         variance_forecast := variance_forecast;
         forecast_horizon := horizon |}.

Definition forecast_volatility (lib : ArchLib) (model_fit : option ArchResult) (horizon : nat)
  : list string * option Forecast :=
  try_print "Error generating forecasts: " (forecast_volatility_body lib model_fit horizon).

Record Summary : Type := {
  parameters : list (string * R);
  s_aic : R;
  s_bic : R;
  s_loglikelihood : R;
  num_observations : nat
}.

(** Lines 122-142: the parameters are copied item by item into a dict. *)
Definition get_model_summary_body (model_fit : option ArchResult) : PyM Summary :=
  f <- attr "params" model_fit;;
  let param_dict := fold_left (fun d kv => d ++ [kv]) (params f) [] in
  ret {| parameters := param_dict; s_aic := aic f; s_bic := bic f;
         s_loglikelihood := loglikelihood f; num_observations := nobs f |}.

Definition get_model_summary (model_fit : option ArchResult) : list string * option Summary :=
  try_print "Error extracting model summary: " (get_model_summary_body model_fit).

(** Lines 161-169: element-wise [resid / conditional_volatility]. *)
Definition calculate_residuals_body (model_fit : option ArchResult) : PyM (list R) :=
  f <- attr "resid" model_fit;;
  ret (map (fun q => fst q / snd q) (combine (resid f) (conditional_volatility f))).

Definition calculate_residuals (model_fit : option ArchResult) : list string * option (list R) :=
  try_print "Error calculating residuals: " (calculate_residuals_body model_fit).

(** A concrete stand-in for [arch], used only to evaluate the wrapper on
    examples: a zero-mean variance-targeting GARCH(1,1) at alpha = 0.05,
    beta = 0.90, with omega = (1 - alpha - beta) times the mean square of
    the data, and the flat forecast at omega / (1 - alpha - beta). *)
Definition fin_part (x : fl) : R := match x with Fin r => r | _ => 0 end.

Definition mean_sq (ys : list R) : R :=
  fold_right (fun y acc => y * y + acc) 0 ys / INR (List.length ys).

Definition vt_fit (m : ArchModel) : ArchResult :=
  let ys := map fin_part (am_y m) in
  let w := 5 / 100 * mean_sq ys in
  {| params := [("omega"%string, w); ("alpha[1]"%string, 5 / 100); ("beta[1]"%string, 9 / 10)];
     resid := ys;
     conditional_volatility := map (fun _ => sqrt (mean_sq ys)) ys;
     loglikelihood := 0; aic := 0; bic := 0;
     nobs := List.length ys |}.

Definition vt_lib : ArchLib := {|
  arch_model := fun y p q d => ret {| am_y := y; am_p := p; am_q := q; am_dist := d |};
  arch_fit := fun m => ret (vt_fit m);
  arch_forecast_variance := fun f h =>
    ret (repeat (match params f with (_, w) :: _ => w / (5 / 100) | [] => 0 end) h)
|}.

End Garch.

(* ------------------------------------------------------------------ *)
(** ** Exceptions of the other [DataProcessor] methods and of [app.main] *)

Module PyExt.

(** Besides the exceptions of [Py]: Python's int division by zero and the
    subscript of [None]. *)
Inductive exc : Type :=
| Exc (e : py_exc)
| ZeroDivisionError
| TypeError (msg : string).

Definition M (A : Type) : Type := (exc + A)%type.

Definition mret {A : Type} (a : A) : M A := inr a.
Definition mraise {A : Type} (e : exc) : M A := inl e.
Definition mbind {A B : Type} (m : M A) (k : A -> M B) : M B :=
  match m with inl e => inl e | inr a => k a end.
Definition lift {A : Type} (m : PyM A) : M A :=
  match m with inl e => inl (Exc e) | inr a => inr a end.

Notation "x <-- m ;; k" := (mbind m (fun x => k))
  (at level 61, m at next level, right associativity).

Definition exc_str' (e : exc) : string :=
  match e with
  | Exc e => exc_str e
  | ZeroDivisionError => "division by zero"
  | TypeError m => m
  end.

Definition try_print' {A : Type} (prefix : string) (m : M A) : list string * option A :=
  match m with
  | inl e => ([(prefix ++ exc_str' e)%string], None)
  | inr a => ([], Some a)
  end.

End PyExt.
Import PyExt.

(* ------------------------------------------------------------------ *)
(** ** float64 arithmetic (numpy semantics: no exception, NaN and infinities) *)

Module Floats.
Import Returns.
Local Open Scope R_scope.

Definition fneg (a : fl) : fl :=
  match a with Fin x => Fin (- x) | PInf => NInf | NInf => PInf | NaN => NaN end.

Definition fadd (a b : fl) : fl :=
  match a, b with
  | Fin x, Fin y => Fin (x + y)
  | NaN, _ | _, NaN => NaN
  | PInf, NInf | NInf, PInf => NaN
  | PInf, _ | _, PInf => PInf
  | NInf, _ | _, NInf => NInf
  end.

Definition fsub (a b : fl) : fl := fadd a (fneg b).

Definition fmul (a b : fl) : fl :=
  match a, b with
  | Fin x, Fin y => Fin (x * y)
  | NaN, _ | _, NaN => NaN
  | Fin x, PInf | PInf, Fin x =>
      if Req_EM_T x 0 then NaN else if Rlt_dec 0 x then PInf else NInf
  | Fin x, NInf | NInf, Fin x =>
      if Req_EM_T x 0 then NaN else if Rlt_dec 0 x then NInf else PInf
  | PInf, PInf | NInf, NInf => PInf
  | PInf, NInf | NInf, PInf => NInf
  end.

Definition fsq (a : fl) : fl := fmul a a.

Definition fsqrt (a : fl) : fl :=
  match a with
  | Fin x => if Rlt_dec x 0 then NaN else Fin (sqrt x)
  | PInf => PInf
  | NInf | NaN => NaN
  end.

Definition fabs (a : fl) : fl :=
  match a with Fin x => Fin (Rabs x) | PInf | NInf => PInf | NaN => NaN end.

(** The comparison [a < b]; false as soon as a NaN is involved. *)
Definition flt (a b : fl) : bool :=
  match a, b with
  | Fin x, Fin y => if Rlt_dec x y then true else false
  | NInf, Fin _ | NInf, PInf | Fin _, PInf => true
  | _, _ => false
  end.

(** [np.sum]; in exact arithmetic the summation order does not matter. *)
Definition fsum (xs : list fl) : fl := fold_right fadd (Fin 0) xs.

End Floats.

(* ------------------------------------------------------------------ *)
(** ** [GARCHModel.ljung_box_test] (lines 190-225)

    The finite values are real numbers (rounding is not modelled); NaN,
    the infinities and the division by zero are modelled as numpy and
    Python have them. *)

Module LjungBox.
Import Returns Floats.
Local Open Scope R_scope.

Definition sum (l : list R) : R := fold_right Rplus 0 l.

Definition mean (l : list R) : R := sum l / INR (List.length l).

(** [np.clip(c, -1, 1)]: NaN stays NaN. *)
Definition fclip (x : fl) : fl :=
  match x with
  | Fin r => Fin (Rmax (-1) (Rmin r 1))
  | PInf => Fin 1
  | NInf => Fin (-1)
  | NaN => NaN
  end.

(** An entry of [np.cov(u, v)] (ddof = 1): the centred cross products,
    summed, times [1 / fact] with fact = m - 1, or 0 when that is not
    positive (numpy warns and divides by zero). *)
Definition cov_entry (u v : list R) : fl :=
  let m := List.length u in
  let fact := if (m <=? 1)%nat then 0 else INR (m - 1) in
  fmul (Fin (sum (map (fun q => (fst q - mean u) * (snd q - mean v)) (combine u v))))
       (fdiv (Fin 1) (Fin fact)).

(** [np.corrcoef(a, b)[0, 1]]: the covariance divided by the standard
    deviation of [a], then by that of [b], then clipped. *)
Definition corrcoef (a b : list R) : fl :=
  fclip (fdiv (fdiv (cov_entry a b) (fsqrt (cov_entry a a))) (fsqrt (cov_entry b b))).

(** What [Series.autocorr] returns: Python's [np.nan] (a built-in float)
    when no pair is left ([nanops.nancorr] below [min_periods]), a numpy
    float otherwise. *)
Inductive corr : Type :=
| py_nan
| np_float (x : fl).

(** pandas [s.autocorr(lag)] = [s.corr(s.shift(lag))]: the pairs
    (s[t], s[t-lag]) for t >= lag, the others being dropped as NaN. *)
Definition autocorr (s : list R) (lag : nat) : corr :=
  match skipn lag s with
  | [] => py_nan
  | a => np_float (corrcoef a (firstn (List.length s - lag) s))
  end.

(** [(autocorr[i] ** 2) / (n - i - 1)], the divisor a Python int: a
    built-in float divided by 0 raises ZeroDivisionError, a numpy float
    gives inf or nan. *)
Definition lb_term (c : corr) (d : Z) : PyM fl :=
  match c with
  | py_nan => if Z.eqb d 0 then raise (ZeroDivision "float division by zero") else ret NaN
  | np_float x => ret (fdiv (fsq x) (Fin (IZR d)))
  end.

(** A list comprehension: the elements in order, the first exception
    propagating. *)
Fixpoint map_py {A B : Type} (f : A -> PyM B) (l : list A) : PyM (list B) :=
  match l with
  | [] => ret []
  | x :: t => y <- f x;; ys <- map_py f t;; ret (y :: ys)
  end.

(** The built-in [sum]: from 0, left to right. *)
Definition py_sum (xs : list fl) : fl := fold_left fadd xs (Fin 0).

Record LBReport : Type := {
  lb_test_statistic : fl;
  lb_p_value : fl;
  lb_lags : nat;
  lb_critical_value : fl
}.

Section WithChi2.
(** [scipy.stats.chi2.cdf] and [scipy.stats.chi2.ppf]. *)
Variables (chi2_cdf : fl -> nat -> fl) (chi2_ppf : R -> nat -> fl).

(** Lines 200-221, from the standardized residuals. *)
Definition ljung_box_body (std_residuals : list R) (lags : nat) : PyM LBReport :=
  let squared_residuals := map (fun z => z ^ 2) std_residuals in
  let n := List.length squared_residuals in
  let autocorr_l := map (fun lag => autocorr squared_residuals lag) (seq 1 lags) in
  terms <- map_py (fun i => lb_term (nth i autocorr_l py_nan) (Z.of_nat n - Z.of_nat i - 1))
                  (seq 0 lags);;
  let lb_stat := fmul (Fin (INR (n * (n + 2)))) (py_sum terms) in
  ret {| lb_test_statistic := lb_stat;
         lb_p_value := fsub (Fin 1) (chi2_cdf lb_stat lags);
         lb_lags := lags;
         lb_critical_value := chi2_ppf (95 / 100) lags |}.

(** The method: residuals first ([self.calculate_residuals], which prints
    its own error), None when that step failed. *)
Definition ljung_box_test (model_fit : option Garch.ArchResult) (lags : nat)
  : list string * option LBReport :=
  let r := Garch.calculate_residuals model_fit in
  match snd r with
  | None => (fst r, None)
  | Some std_residuals =>
      let r' := try_print "Error performing Ljung-Box test: " (ljung_box_body std_residuals lags) in
      (fst r ++ fst r', snd r')
  end.

End WithChi2.

(** The statistic as the spec writes it: N(N+2) times the sum over
    k = 1..L of rho(k)^2 / (N - k), rho(k) the lag-k autocorrelation of
    z^2 (NaN when pandas gives NaN). *)
Definition rho (z : list R) (k : nat) : fl :=
  match autocorr (map (fun t => t ^ 2) z) k with py_nan => NaN | np_float x => x end.

Definition ljung_box_spec_stat (z : list R) (L : nat) : fl :=
  let N := INR (List.length z) in
  fmul (Fin (N * (N + 2))) (fsum (map (fun k => fdiv (fsq (rho z k)) (Fin (N - INR k))) (seq 1 L))).

End LjungBox.

(* ------------------------------------------------------------------ *)
(** ** [GARCHModel.arch_lm_test] (lines 242-287)

    As for the Ljung-Box test, finite values are real numbers; the
    division of line 269 and the mean of line 268 follow IEEE. *)

Module ArchLM.
Import Returns Floats.
Local Open Scope R_scope.

Definition rsum (l : list R) : R := fold_right Rplus 0 l.

Definition dot (a b : list R) : R := rsum (map (fun p => fst p * snd p) (combine a b)).

(** Python's [s[a:b]] for 0 <= a <= b <= len(s). *)
Definition slice {A : Type} (s : list A) (a b : nat) : list A :=
  firstn (b - a) (skipn a s).

(** The columns of X (lines 256-259): the intercept, then in column i+1 the
    slice [lags-i-1 : n-i-1] of the squared residuals. *)
Definition design_columns (sq : list R) (lags : nat) : list (list R) :=
  let n := List.length sq in
  repeat 1 (n - lags)%nat
    :: map (fun i => slice sq (lags - i - 1) (n - i - 1)) (seq 0 lags).

(** [X.T @ X] and [X.T @ y] from the columns of X. *)
Definition gram (cols : list (list R)) : list (list R) :=
  map (fun a => map (fun b => dot a b) cols) cols.

Definition xty (cols : list (list R)) (y : list R) : list R :=
  map (fun a => dot a y) cols.

(** [X @ beta], X having m rows. *)
Definition mat_vec (cols : list (list R)) (beta : list fl) (m : nat) : list fl :=
  map (fun j => fsum (map (fun cb => fmul (Fin (nth j (fst cb) 0)) (snd cb)) (combine cols beta)))
      (seq 0 m).

Definition Reqb (x y : R) : bool := if Req_EM_T x y then true else false.

(** Column [j] of [A] is zero. *)
Definition zero_column (A : list (list R)) (j : nat) : bool :=
  forallb (fun row => Reqb (nth j row 0) 0) A.

Definition has_zero_column (A : list (list R)) : bool :=
  existsb (zero_column A) (seq 0 (List.length A)).

(** The returned dict. *)
Record LMReport : Type := {
  lm_test_statistic : fl;
  lm_p_value : fl;
  lm_lags : nat;
  lm_critical_value : fl
}.

(** Lines 267-269: [ssr], [tss] ([np.mean] is sum / count) and
    [1 - ssr / tss], with IEEE division (0/0 is NaN, x/0 an infinity). *)
Definition r_squared (y : list R) (fitted_values : list fl) : fl :=
  let ssr := fsum (map (fun p => fsq (fsub (Fin (fst p)) (snd p))) (combine y fitted_values)) in
  let my := fdiv (Fin (rsum y)) (Fin (INR (List.length y))) in
  let tss := fsum (map (fun v => fsq (fsub (Fin v) my)) y) in
  fsub (Fin 1) (fdiv ssr tss).

Section WithSolver.
(** [np.linalg.solve] calls LAPACK's [dgesv] (LU with partial pivoting in
    float64), which is not part of this repository: [gesv A b] is its
    solution, or None when it meets an exactly zero pivot. *)
Variable gesv : list (list R) -> list R -> option (list fl).
(** [scipy.stats.chi2.cdf] and [scipy.stats.chi2.ppf]. *)
Variables (chi2_cdf : fl -> nat -> fl) (chi2_ppf : R -> nat -> fl).

(** [np.linalg.solve]: [LinAlgError] on a zero pivot. A zero column of [A]
    is still zero when elimination reaches it (each update subtracts a
    finite multiple of zero), so the pivot search there finds only zeros:
    on such a matrix the solver always raises. *)
Definition linalg_solve (A : list (list R)) (b : list R) : PyM (list fl) :=
  if has_zero_column A then raise LinAlgError
  else match gesv A b with
       | Some beta => ret beta
       | None => raise LinAlgError
       end.

(** Lines 265-280, the inner [try]. *)
Definition ols_step (X : list (list R)) (y : list R) (n lags : nat) : PyM LMReport :=
  beta <- linalg_solve (gram X) (xty X y);;
  let fitted_values := mat_vec X beta (n - lags) in
  let lm_stat := fmul (Fin (INR (n - lags))) (r_squared y fitted_values) in
  ret {| lm_test_statistic := lm_stat;
         lm_p_value := fsub (Fin 1) (chi2_cdf lm_stat lags);
         lm_lags := lags;
         lm_critical_value := chi2_ppf (95 / 100) lags |}.

(** Lines 252-283: [np.ones] with a negative dimension raises; the inner
    [except np.linalg.LinAlgError: return None] catches only that error. *)
Definition arch_lm_body (std_residuals : list R) (lags : nat) : PyM (option LMReport) :=
  let squared_residuals := map (fun z => z ^ 2) std_residuals in
  let n := List.length squared_residuals in
  if (n <? lags)%nat then raise (ValueError "negative dimensions are not allowed")
  else
    let X := design_columns squared_residuals lags in
    let y := skipn lags squared_residuals in
    match ols_step X y n lags with
    | inl LinAlgError => ret None
    | inl e => raise e
    | inr r => ret (Some r)
    end.

(** The method: residuals first ([self.calculate_residuals], which prints
    its own error), None when that step failed. *)
Definition arch_lm_test (model_fit : option Garch.ArchResult) (lags : nat)
  : list string * option LMReport :=
  let r := Garch.calculate_residuals model_fit in
  match snd r with
  | None => (fst r, None)
  | Some std_residuals =>
      let r' := try_print "Error performing ARCH-LM test: " (arch_lm_body std_residuals lags) in
      (fst r ++ fst r', match snd r' with Some o => o | None => None end)
  end.

End WithSolver.

End ArchLM.

(* ------------------------------------------------------------------ *)
(** ** The statistics of [DataProcessor] (src/data_utils.py, lines 106-297) *)

Module Stats.
Import Returns Floats.
Local Open Scope R_scope.

(** pandas reductions on a NaN-free Series (pandas.core.nanops): [mean]
    is sum / count (NaN when empty); [var] and [std] use ddof = 1 and give
    NaN when count <= ddof. numpy's [mean] is the same formula. The
    arithmetic is exact: float rounding and overflow to inf are not
    modelled (nanops sums pairwise and computes the variance from the
    mean-centred values), so a fact proved here about the values of a
    finite sum or square root holds of the reals, not of the float64
    results. *)
Definition mean_fl (xs : list fl) : fl := fdiv (fsum xs) (Fin (INR (List.length xs))).

Definition pd_var (xs : list fl) : fl :=
  let count := List.length xs in
  if (count <=? 1)%nat then NaN
  else
    let avg := fdiv (fsum xs) (Fin (INR count)) in
    fdiv (fsum (map (fun x => fsq (fsub avg x)) xs)) (Fin (INR (count - 1))).

(** [Series.std()]: the square root of [pd_var], exact like the above. *)
Definition pd_std (xs : list fl) : fl := fsqrt (pd_var xs).

Definition fmin (a b : fl) : fl := if flt b a then b else a.
Definition fmax (a b : fl) : fl := if flt a b then b else a.

Definition pd_min (xs : list fl) : fl :=
  match xs with [] => NaN | x :: t => fold_left fmin t x end.
Definition pd_max (xs : list fl) : fl :=
  match xs with [] => NaN | x :: t => fold_left fmax t x end.

(** Lines 119-142: the returned dict. *)
Record ReturnsStats : Type := {
  st_mean : fl;
  st_std : fl;
  st_min : fl;
  st_max : fl;
  st_skewness : fl;
  st_kurtosis : fl;
  st_jarque_bera : fl * fl;
  st_count : nat;
  st_annual_mean : fl;
  st_annual_std : fl;
  st_sharpe_ratio : fl
}.

Section WithScipy.
(** [scipy.stats.skew], [scipy.stats.kurtosis] and [scipy.stats.jarque_bera]
    (statistic, p-value); each may raise. *)
Variables (skew kurtosis : list fl -> PyM fl) (jarque_bera : list fl -> PyM (fl * fl)).

Definition calculate_returns_statistics_body (returns : series) : M ReturnsStats :=
  let returns_clean := values (dropna returns) in
  let mean := mean_fl returns_clean in
  let std := pd_std returns_clean in
  let mn := pd_min returns_clean in
  let mx := pd_max returns_clean in
  sk <-- lift (skew returns_clean);;
  ku <-- lift (kurtosis returns_clean);;
  jb <-- lift (jarque_bera returns_clean);;
  let annual_mean := fmul mean (Fin 252) in
  let annual_std := fmul std (Fin (sqrt 252)) in
  mret {| st_mean := mean; st_std := std; st_min := mn; st_max := mx;
          st_skewness := sk; st_kurtosis := ku; st_jarque_bera := jb;
          st_count := List.length returns_clean;
          st_annual_mean := annual_mean; st_annual_std := annual_std;
          st_sharpe_ratio := fdiv annual_mean annual_std |}.

Definition calculate_returns_statistics (returns : series) : list string * option ReturnsStats :=
  try_print' "Error calculating returns statistics: " (calculate_returns_statistics_body returns).

End WithScipy.

(** [Series.quantile(q)]: numpy's 'linear' method on the sorted values. *)
Fixpoint insert_fl (x : fl) (l : list fl) : list fl :=
  match l with
  | [] => [x]
  | y :: t => if flt y x then y :: insert_fl x t else x :: l
  end.

Definition sort_fl (xs : list fl) : list fl := fold_right insert_fl [] xs.

(** numpy's [_lerp(a, b, t)]. *)
Definition lerp (a b : fl) (t : R) : fl :=
  let diff_b_a := fsub b a in
  if Rle_dec (1 / 2) t then fsub b (fmul diff_b_a (Fin (1 - t)))
  else fadd a (fmul diff_b_a (Fin t)).

(** The quantile at q = num / den (den > 0): virtual index q (n - 1), its
    floor and the next index; at or past the last index numpy takes index
    -1 for both and gamma = virtual index + 1. Empty: NaN. *)
Definition quantile (xs : list fl) (num den : nat) : fl :=
  let arr := sort_fl xs in
  let n := List.length arr in
  if (n =? 0)%nat then NaN
  else
    let virtual := INR num / INR den * INR (n - 1) in
    if Rle_dec (INR (n - 1)) virtual then
      lerp (nth (n - 1) arr NaN) (nth (n - 1) arr NaN) (virtual + 1)
    else
      let prev := ((num * (n - 1)) / den)%nat in
      lerp (nth prev arr NaN) (nth (S prev) arr NaN) (virtual - INR prev).

(** [scipy.stats.zscore] (ddof = 0). *)
Definition zscore (xs : list fl) : list fl :=
  let mn := mean_fl xs in
  let std := fsqrt (fdiv (fsum (map (fun x => fsq (fsub x mn)) xs)) (Fin (INR (List.length xs)))) in
  map (fun x => fdiv (fsub x mn) std) xs.

(** [s[mask]] with a boolean array: positional selection. *)
Definition bool_mask (s : series) (m : list bool) : series :=
  map fst (filter snd (combine s m)).

Record OutlierReport : Type := {
  outliers : series;
  num_outliers : nat;
  outlier_percentage : R;
  outlier_indices : list nat
}.

(** Lines 164-179. *)
Definition outlier_selection (returns_clean : series) (method : string) (threshold : R)
  : M series :=
  if String.eqb method "iqr" then
    let v := values returns_clean in
    let Q1 := quantile v 1 4 in
    let Q3 := quantile v 3 4 in
    let IQR := fsub Q3 Q1 in
    let lower_bound := fsub Q1 (fmul (Fin (3 / 2)) IQR) in
    let upper_bound := fadd Q3 (fmul (Fin (3 / 2)) IQR) in
    mret (filter (fun p => flt (snd p) lower_bound || flt upper_bound (snd p)) returns_clean)
  else if String.eqb method "zscore" then
    let z_scores := map fabs (zscore (values returns_clean)) in
    mret (bool_mask returns_clean (map (fun z => flt (Fin threshold) z) z_scores))
  else mraise (Exc (ValueError "Method must be 'iqr' or 'zscore'")).

(** Python's [a / b] on two ints. *)
Definition py_truediv (a b : nat) : M R :=
  if (b =? 0)%nat then mraise ZeroDivisionError else mret (INR a / INR b).

(** Lines 161-190. *)
Definition detect_outliers_body (returns : series) (method : string) (threshold : R)
  : M OutlierReport :=
  let returns_clean := dropna returns in
  outliers <-- outlier_selection returns_clean method threshold;;
  ratio <-- py_truediv (List.length outliers) (List.length returns_clean);;
  mret {| outliers := outliers; num_outliers := List.length outliers;
          outlier_percentage := ratio * 100; outlier_indices := map fst outliers |}.

Definition detect_outliers (returns : series) (method : string) (threshold : R)
  : list string * option OutlierReport :=
  try_print' "Error detecting outliers: " (detect_outliers_body returns method threshold).

Record VolMeasures : Type := {
  historical_volatility : fl;
  annualized_volatility : fl;
  realized_volatility : fl;
  ewma_volatility : fl
}.

(** [s.iloc[-1]]. *)
Definition iloc_last (xs : list fl) : PyM fl :=
  match rev xs with [] => raise IndexError | x :: _ => ret x end.

Section WithEwm.
(** pandas' [returns_clean.ewm(span=30).std()], one value per input value. *)
Variable ewm_std : list fl -> list fl.

(** Lines 269-296. *)
Definition calculate_volatility_measures_body (returns : series) : PyM VolMeasures :=
  let returns_clean := values (dropna returns) in
  let volatility := pd_std returns_clean in
  let annual_volatility := fmul volatility (Fin (sqrt 252)) in
  let realized_vol := fsqrt (fsum (map fsq returns_clean)) in
  ewma_vol <- iloc_last (ewm_std returns_clean);;
  ret {| historical_volatility := volatility; annualized_volatility := annual_volatility;
         realized_volatility := realized_vol; ewma_volatility := ewma_vol |}.

Definition calculate_volatility_measures (returns : series) : list string * option VolMeasures :=
  try_print "Error calculating volatility measures: " (calculate_volatility_measures_body returns).

End WithEwm.

End Stats.

(* ------------------------------------------------------------------ *)
(** ** [DataProcessor.fetch_stock_data] (src/data_utils.py, lines 37-59) *)

Module Fetch.
Import Returns.

(** [len(df)] and [df.empty] for a frame of equally long columns. *)
Definition frame_len (df : frame) : nat :=
  match df with [] => 0 | c :: _ => List.length (snd c) end.

Definition frame_empty (df : frame) : bool := Nat.eqb (frame_len df) 0.

(** [df.dropna()]: the rows without a NaN in any column. *)
Definition row_complete (df : frame) (i : nat) : bool :=
  forallb (fun c => negb (is_nan (nth i (snd c) NaN))) df.

Definition frame_dropna (df : frame) : frame :=
  let keep := filter (row_complete df) (seq 0 (frame_len df)) in
  map (fun c => (fst c, map (fun i => nth i (snd c) NaN) keep)) df.

(** Decimal digits of a nat, as in an f-string. *)
Fixpoint digits_aux (fuel n : nat) (acc : string) : string :=
  match fuel with
  | O => acc
  | S f =>
      let acc' := String (Ascii.ascii_of_nat (48 + n mod 10)) acc in
      if (n <? 10)%nat then acc' else digits_aux f (n / 10) acc'
  end.

Definition str_nat (n : nat) : string := digits_aux (S n) n "".

Section WithYFinance.
(** [yf.Ticker(ticker).history(start=start_date, end=end_date)] for the
    chosen dates; it may raise. *)
Variable history : string -> PyM frame.

Definition fetch_stock_data_body (ticker : string) : PyM frame :=
  data <- history ticker;;
  if frame_empty data then raise (ValueError ("No data found for ticker " ++ ticker))
  else if (frame_len data <? 50)%nat then
    raise (ValueError ("Insufficient data for " ++ ticker ++ ". Found " ++
                       str_nat (frame_len data) ++ " observations, need at least 50."))
  else ret (frame_dropna data).

Definition fetch_stock_data (ticker : string) : list string * option frame :=
  try_print ("Error fetching data for " ++ ticker ++ ": ") (fetch_stock_data_body ticker).

End WithYFinance.

End Fetch.

(* ------------------------------------------------------------------ *)
(** ** [main] (src/app.py, lines 85-131): from the download to the fit *)

Module App.
Import Returns Garch Fetch.

(** Where the analysis stops: an [st.error(...)] followed by [return], or
    the fitted model and the forecasts (None when forecasting failed). *)
Inductive outcome : Type :=
| StError (msg : string)
| Analysed (model_fit : ArchResult) (forecasts : option Forecast).

Definition insufficient_app_msg (ticker : string) : string :=
  "Insufficient data for " ++ ticker ++ ". Please try a different ticker or date range.".

Definition fit_failed_msg : string :=
  "Failed to fit GARCH model. Please try a different ticker or date range.".

(** The outer [except Exception as e: st.error(f"An error occurred during
    analysis: {str(e)}")]. *)
Definition analysis_error (e : string) : string :=
  "An error occurred during analysis: " ++ e.

(** Steps 3 and 4 (lines 119-131): printed lines and the outcome. *)
Definition app_fit (lib : ArchLib) (log_returns : list fl) (forecast_horizon : nat)
  : list string * outcome :=
  let r := snd (fit_garch lib log_returns 1 1 "normal" GARCHModel_init) in
  match snd r with
  | None => (fst r, StError fit_failed_msg)
  | Some model_fit =>
      let r4 := forecast_volatility lib (Some model_fit) forecast_horizon in
      (fst r ++ fst r4, Analysed model_fit (snd r4))
  end.

(** Lines 107-117, given what [fetch_stock_data] returned. *)
Definition app_after_fetch (lib : ArchLib) (ticker : string) (stock_data : option frame)
  (forecast_horizon : nat) : list string * outcome :=
  match stock_data with
  | None => ([], StError (insufficient_app_msg ticker))
  | Some sd =>
      if (frame_len sd <? 100)%nat then ([], StError (insufficient_app_msg ticker))
      else
        let r2 := calculate_returns sd in
        match snd r2 with
        | None => (fst r2, StError (analysis_error "'NoneType' object is not subscriptable"))
        | Some returns_data =>
            match col_lookup "log_returns" returns_data with
            | None => (fst r2, StError (analysis_error "'log_returns'"))
            | Some lr =>
                let r3 := app_fit lib (values lr) forecast_horizon in
                (fst r2 ++ fst r3, snd r3)
            end
        end
  end.

(** Lines 86-117 for a run whose dates passed the check of line 90. *)
Definition app_analysis (lib : ArchLib) (history : string -> PyM frame) (ticker : string)
  (forecast_horizon : nat) : list string * outcome :=
  if String.eqb ticker "" then ([], StError "Please enter a valid stock ticker.")
  else
    let r1 := fetch_stock_data history ticker in
    let r := app_after_fetch lib ticker (snd r1) forecast_horizon in
    (fst r1 ++ fst r, snd r).

End App.

(* ------------------------------------------------------------------ *)
(** ** A session with one [GARCHModel] instance

    The objects the methods create live in a heap (a list; an object's
    address is its position). A [model_fit] argument is Python's [None]
    or the address of an object. *)

Module Session.
Import Returns Garch.










Section WithLibraries.
Variable lib : ArchLib.
Variables (chi2_cdf : fl -> nat -> fl) (chi2_ppf : R -> nat -> fl).
Variable gesv : list (list R) -> list R -> option (list fl).




End WithLibraries.

End Session.


(* ================================================================== *)
(** * Properties *)

Module ReturnsFacts.
Import Returns.
Local Open Scope R_scope.

Lemma last_col_snoc (rest : frame) (nm : string) (v : list fl) :
  last_col (rest ++ [(nm, v)]) = Some v.
Proof. unfold last_col. rewrite rev_app_distr. reflexivity. Qed.

Lemma last_col_cons (c : string * list fl) (rest : frame) :
  exists v, last_col (c :: rest) = Some v.
Proof.
  unfold last_col. simpl. destruct (rev rest) as [|[n v] t]; simpl.
  - exists (snd c). reflexivity.
  - exists v. reflexivity.
Qed.

Lemma select_prices_nonempty (df : frame) :
  df <> [] -> exists vs, select_prices df = inr vs.
Proof.
  intros Hne. unfold select_prices.
  destruct (col_lookup "Adj Close" df); [eexists; reflexivity|].
  destruct (col_lookup "Close" df); [eexists; reflexivity|].
  destruct df as [|c rest]; [contradiction|].
  destruct (last_col_cons c rest) as [v Hv]. rewrite Hv. eexists; reflexivity.
Qed.

(** C10: the price column is 'Adj Close' when present, otherwise 'Close',
    otherwise the last column of the frame; in each case the returns are
    computed from that column and nothing is printed. *)
Theorem calculate_returns_column_precedence (df : frame) :
  (forall a, col_lookup "Adj Close" df = Some a ->
     calculate_returns df = ([], Some (returns_frame a))) /\
  (col_lookup "Adj Close" df = None ->
   forall c, col_lookup "Close" df = Some c ->
     calculate_returns df = ([], Some (returns_frame c))) /\
  (col_lookup "Adj Close" df = None -> col_lookup "Close" df = None ->
   forall rest nm v, df = rest ++ [(nm, v)] ->
     calculate_returns df = ([], Some (returns_frame v))).
Proof.
  unfold calculate_returns, calculate_returns_body, select_prices.
  repeat split.
  - intros a Ha. rewrite Ha. reflexivity.
  - intros Ha c Hc. rewrite Ha, Hc. reflexivity.
  - intros Ha Hc rest nm v ->. rewrite Ha, Hc, last_col_snoc. reflexivity.
Qed.

Definition df_open_close : frame :=
  [("Open"%string, [Fin 10; Fin 11]); ("Close"%string, [Fin 12; Fin 13])].

Lemma calculate_returns_column_precedence_witness :
  calculate_returns df_open_close = ([], Some (returns_frame [Fin 12; Fin 13])).
Proof.
  apply (proj1 (proj2 (calculate_returns_column_precedence df_open_close)));
    reflexivity.
Defined.

(** C6 (amended): [calculate_returns] checks neither the sign of the prices
    nor their number: every frame with at least one column gives the returns
    frame of its selected price column, with nothing printed; only a frame
    without columns makes it print an error and return None. *)
Theorem calculate_returns_no_validation (df : frame) :
  (df <> [] -> exists vs, select_prices df = inr vs /\
                          calculate_returns df = ([], Some (returns_frame vs))) /\
  (df = [] -> calculate_returns df =
     (["Error calculating returns: single positional indexer is out-of-bounds"%string], None)).
Proof.
  split.
  - intros Hne. destruct (select_prices_nonempty df Hne) as [vs Hvs].
    exists vs. split; [exact Hvs|].
    unfold calculate_returns, calculate_returns_body. rewrite Hvs. reflexivity.
  - intros ->. reflexivity.
Qed.

Definition df_zero_price : frame :=
  [("Close"%string, [Fin 1; Fin 0; Fin 2])].

Lemma calculate_returns_no_validation_witness :
  df_zero_price <> [] /\
  calculate_returns df_zero_price = ([], Some (returns_frame [Fin 1; Fin 0; Fin 2])).
Proof.
  split; [discriminate|].
  destruct (proj1 (calculate_returns_no_validation df_zero_price)) as [vs [Hs Hc]];
    [discriminate|].
  rewrite Hc. unfold select_prices in Hs. simpl in Hs. injection Hs as <-.
  reflexivity.
Defined.

(** C6 counterexample: three prices, one of them zero, and no error. *)
Lemma calculate_returns_zero_price_accepted :
  List.length [Fin 1; Fin 0; Fin 2] = 3%nat /\
  fst (calculate_returns df_zero_price) = [] /\
  snd (calculate_returns df_zero_price) <> None.
Proof.
  split; [reflexivity|]. split; [reflexivity|]. simpl. discriminate.
Qed.

(** *** Positive price series: the log-return column *)

Lemma map_fst_combine {A B : Type} (ks : list A) (xs : list B) :
  List.length ks = List.length xs -> map fst (combine ks xs) = ks.
Proof.
  revert xs; induction ks as [|k ks IH]; intros [|x xs] H; simpl in *;
    try reflexivity; try discriminate.
  f_equal. apply IH. lia.
Qed.

Lemma map_snd_combine {A B : Type} (ks : list A) (xs : list B) :
  List.length ks = List.length xs -> map snd (combine ks xs) = xs.
Proof.
  revert xs; induction ks as [|k ks IH]; intros [|x xs] H; simpl in *;
    try reflexivity; try discriminate.
  f_equal. apply IH. lia.
Qed.

Lemma shift1_combine (ks : list nat) (xs : list fl) :
  List.length ks = List.length xs ->
  shift1 (combine ks xs) = combine ks (NaN :: removelast xs).
Proof.
  intros H. unfold shift1, values.
  rewrite map_fst_combine, map_snd_combine by exact H. reflexivity.
Qed.

Lemma zip_with_combine (g : fl -> fl -> fl) (ks : list nat) (xs ys : list fl) :
  List.length ks = List.length xs -> List.length ks = List.length ys ->
  zip_with g (combine ks xs) (combine ks ys) =
  combine ks (map (fun q => g (fst q) (snd q)) (combine xs ys)).
Proof.
  unfold zip_with. revert xs ys.
  induction ks as [|k ks IH]; intros [|x xs] [|y ys] H1 H2; simpl in *;
    try reflexivity; try discriminate.
  f_equal. apply IH; lia.
Qed.

Lemma dropna_all_fin (ks : list nat) (rs : list R) :
  dropna (combine ks (map Fin rs)) = combine ks (map Fin rs).
Proof.
  unfold dropna. revert rs.
  induction ks as [|k ks IH]; intros [|r rs]; simpl; try reflexivity.
  f_equal. apply IH.
Qed.

Lemma removelast_map {A B : Type} (f : A -> B) (l : list A) :
  removelast (map f l) = map f (removelast l).
Proof.
  induction l as [|a [|b l] IH]; simpl; try reflexivity.
  simpl in IH. rewrite IH. reflexivity.
Qed.

Lemma combine_removelast_cons {A : Type} (p : A) (ps : list A) :
  combine ps (removelast (p :: ps)) = combine ps (p :: ps).
Proof.
  revert p; induction ps as [|q ps IH]; intros p; simpl; try reflexivity.
  destruct ps as [|r ps]; simpl; try reflexivity.
  f_equal. specialize (IH q). simpl in IH. exact IH.
Qed.

Lemma combine_map {A B C D : Type} (f : A -> C) (g : B -> D) xs ys :
  combine (map f xs) (map g ys) = map (fun q => (f (fst q), g (snd q))) (combine xs ys).
Proof.
  revert ys; induction xs as [|x xs IH]; intros [|y ys]; simpl; try reflexivity.
  f_equal. apply IH.
Qed.

Lemma length_removelast_cons {A : Type} (p : A) (ps : list A) :
  List.length (removelast (p :: ps)) = List.length ps.
Proof.
  revert p; induction ps as [|q ps IH]; intros p; [reflexivity|].
  change (removelast (p :: q :: ps)) with (p :: removelast (q :: ps)).
  cbn [List.length]. rewrite IH. reflexivity.
Qed.

Lemma log_fdiv_pos (a b : R) :
  0 < a -> 0 < b -> flog (fdiv (Fin a) (Fin b)) = Fin (ln (a / b)).
Proof.
  intros Ha Hb. unfold fdiv.
  destruct (Req_EM_T b 0) as [E|_]; [lra|].
  unfold flog. destruct (Rlt_dec 0 (a / b)) as [_|N]; [reflexivity|].
  exfalso. apply N. apply Rdiv_lt_0_compat; assumption.
Qed.

Lemma fsub1_fdiv_pos (a b : R) :
  0 < b -> fsub1 (fdiv (Fin a) (Fin b)) = Fin (a / b - 1).
Proof.
  intros Hb. unfold fdiv. destruct (Req_EM_T b 0) as [E|_]; [lra|]. reflexivity.
Qed.

(** The consecutive ratios of positive prices, in the two shapes the
    pipeline uses. *)
Lemma map_ratios_pos (g : fl -> fl -> fl) (h : R -> R -> R) (p : R) (ps : list R) :
  Forall (fun x => 0 < x) (p :: ps) ->
  (forall a b, 0 < a -> 0 < b -> g (Fin a) (Fin b) = Fin (h a b)) ->
  map (fun q => g (fst q) (snd q)) (combine (map Fin ps) (map Fin (removelast (p :: ps)))) =
  map Fin (map (fun q => h (fst q) (snd q)) (combine ps (p :: ps))).
Proof.
  intros Hpos Hg. rewrite combine_map, combine_removelast_cons, !map_map.
  revert p Hpos. induction ps as [|q ps IH]; intros p Hpos; [reflexivity|].
  inversion Hpos as [|? ? Hp Hrest]; subst.
  inversion Hrest as [|? ? Hq _]; subst.
  simpl. rewrite Hg by assumption. f_equal. apply (IH q). exact Hrest.
Qed.

Lemma has_idx_combine_seq (i a : nat) (xs : list fl) :
  has_idx i (combine (seq a (List.length xs)) xs) = (a <=? i) && (i <? a + List.length xs).
Proof.
  unfold has_idx. revert a; induction xs as [|x xs IH]; intros a; simpl.
  - destruct (a <=? i) eqn:E1; destruct (i <? a + 0) eqn:E2; try reflexivity.
    apply Nat.leb_le in E1. apply Nat.ltb_lt in E2. lia.
  - destruct (Nat.eqb i a) eqn:E.
    + apply Nat.eqb_eq in E. subst.
      rewrite Nat.leb_refl. symmetry. apply Nat.ltb_lt. lia.
    + apply Nat.eqb_neq in E. fold (has_idx i (combine (seq (S a) (List.length xs)) xs)).
      unfold has_idx in IH |- *. rewrite IH.
      destruct (S a <=? i) eqn:E1; destruct (a <=? i) eqn:E3;
        destruct (i <? S a + List.length xs) eqn:E2; destruct (i <? a + S (List.length xs)) eqn:E4;
        try reflexivity;
        repeat match goal with
        | H : (_ <=? _) = true |- _ => apply Nat.leb_le in H
        | H : (_ <=? _) = false |- _ => apply Nat.leb_gt in H
        | H : (_ <? _) = true |- _ => apply Nat.ltb_lt in H
        | H : (_ <? _) = false |- _ => apply Nat.ltb_ge in H
        end; lia.
Qed.

Lemma has_idx_skipn (i k : nat) (s : series) :
  has_idx i (skipn k s) = true -> has_idx i s = true.
Proof.
  unfold has_idx. revert s; induction k as [|k IH]; intros s H; [exact H|].
  destruct s as [|[j v] s]; [exact H|]. simpl in H |- *.
  destruct (Nat.eqb i j); [reflexivity|]. apply IH. exact H.
Qed.

Lemma has_idx_in_keys (i : nat) (s : series) :
  has_idx i s = true -> In i (map fst s).
Proof.
  unfold has_idx. induction s as [|[j v] s IH]; simpl; [discriminate|].
  destruct (Nat.eqb i j) eqn:E; intros H.
  - left. symmetry. apply Nat.eqb_eq. exact E.
  - right. apply IH. exact H.
Qed.

Lemma in_le_fold_max (i : nat) (l : list nat) :
  In i l -> (i <= fold_right Nat.max 0 l)%nat.
Proof.
  induction l as [|x l IH]; simpl; [contradiction|].
  intros [->|H]; [lia|]. specialize (IH H). lia.
Qed.

Lemma filter_seq_extend (P : nat -> bool) (K M : nat) :
  (K <= M)%nat -> (forall i, (K <= i < M)%nat -> P i = false) ->
  filter P (seq 0 M) = filter P (seq 0 K).
Proof.
  intros HKM. induction HKM as [|M HKM IH]; intros HP; [reflexivity|].
  rewrite seq_S, filter_app, IH by (intros i Hi; apply HP; lia).
  simpl. rewrite (HP M) by lia. apply app_nil_r.
Qed.

Lemma filter_range_seq (n : nat) :
  filter (fun i => (1 <=? i) && (i <? S n)) (seq 0 (S n)) = seq 1 n.
Proof.
  simpl. rewrite <- (filter_true (seq 1 n)) at 2.
  apply filter_ext_in. intros i Hi. apply in_seq in Hi.
  destruct i as [|i]; [lia|]. apply Nat.leb_le. lia.
Qed.


Lemma map_snd_map_combine (f : fl -> fl) (ks : list nat) (xs : list fl) :
  map (fun p => (fst p, f (snd p))) (combine ks xs) = combine ks (map f xs).
Proof.
  revert xs; induction ks as [|k ks IH]; intros [|x xs]; simpl; try reflexivity.
  f_equal. apply IH.
Qed.

Lemma nth_combine_lt {A B : Type} (l : list A) (l' : list B) (i : nat) (d : A) (d' : B) :
  (i < List.length l)%nat -> (i < List.length l')%nat ->
  nth i (combine l l') (d, d') = (nth i l d, nth i l' d').
Proof.
  revert l' i; induction l as [|x l IH]; intros [|y l'] i H1 H2; simpl in *;
    try lia.
  destruct i as [|i]; [reflexivity|]. apply IH; lia.
Qed.

Lemma reindex_combine_seq (a : nat) (xs : list fl) :
  reindex (seq a (List.length xs)) (combine (seq a (List.length xs)) xs) =
  combine (seq a (List.length xs)) xs.
Proof.
  unfold reindex. revert a; induction xs as [|x xs IH]; intros a; [reflexivity|].
  simpl. rewrite Nat.eqb_refl. f_equal.
  etransitivity; [|apply (IH (S a))]. apply map_ext_in. intros i Hi.
  apply in_seq in Hi. destruct (Nat.eqb i a) eqn:E; [apply Nat.eqb_eq in E; lia|].
  reflexivity.
Qed.

(** The consecutive log ratios ln(p(t)/p(t-1)) of a price list. *)
Definition log_ratio (q : R * R) : R := ln (fst q / snd q).

Lemma exp_sum_log_ratios (p : R) (ps : list R) :
  Forall (fun x => 0 < x) (p :: ps) ->
  exp (fold_right Rplus 0 (map log_ratio (combine ps (p :: ps)))) = last (p :: ps) 1 / p.
Proof.
  revert p; induction ps as [|q ps IH]; intros p Hpos.
  - inversion Hpos; subst. simpl. rewrite exp_0. field. lra.
  - inversion Hpos as [|? ? Hp Hrest]; subst.
    inversion Hrest as [|? ? Hq _]; subst.
    change (combine (q :: ps) (p :: q :: ps)) with ((q, p) :: combine ps (q :: ps)).
    cbn [map fold_right]. rewrite exp_plus, IH by exact Hrest.
    unfold log_ratio; simpl fst; simpl snd.
    rewrite exp_ln by (apply Rdiv_lt_0_compat; assumption).
    change (last (p :: q :: ps) 1) with (last (q :: ps) 1). field. lra.
Qed.

Section PositivePrices.
Variables (p : R) (ps : list R).
Hypothesis Hpos : Forall (fun x => 0 < x) (p :: ps).

Let n := List.length ps.
Let prices := to_series (map Fin (p :: ps)).
Let rs := map log_ratio (combine ps (p :: ps)).
Let ss := map (fun q => fst q / snd q - 1) (combine ps (p :: ps)).

Lemma prices_eq : prices = combine (seq 0 (S n)) (Fin p :: map Fin ps).
Proof. unfold prices, to_series, n. simpl. rewrite length_map. reflexivity. Qed.

Lemma length_rs : List.length rs = n.
Proof. unfold rs, n. rewrite length_map, length_combine. simpl. lia. Qed.

Lemma length_ss : List.length ss = n.
Proof. unfold ss, n. rewrite length_map, length_combine. simpl. lia. Qed.

Lemma shift_pairs :
  combine (Fin p :: map Fin ps) (NaN :: removelast (Fin p :: map Fin ps)) =
  (Fin p, NaN) :: combine (map Fin ps) (map Fin (removelast (p :: ps))).
Proof.
  change (Fin p :: map Fin ps) with (map Fin (p :: ps)) at 2.
  rewrite removelast_map. reflexivity.
Qed.

Lemma len_shift : List.length (seq 0 (S n)) = List.length (NaN :: removelast (Fin p :: map Fin ps)).
Proof.
  rewrite length_seq. cbn [List.length].
  change (Fin p :: map Fin ps) with (map Fin (p :: ps)).
  rewrite removelast_map, length_map, length_removelast_cons. reflexivity.
Qed.

Lemma len_prices : List.length (seq 0 (S n)) = List.length (Fin p :: map Fin ps).
Proof. rewrite length_seq. simpl. rewrite length_map. reflexivity. Qed.

Lemma log_column :
  dropna (zip_with (fun a b => flog (fdiv a b)) prices (shift1 prices)) =
  combine (seq 1 n) (map Fin rs).
Proof.
  rewrite prices_eq, shift1_combine by exact len_prices.
  rewrite zip_with_combine by (apply len_prices || apply len_shift).
  rewrite shift_pairs. cbn [map fst snd].
  rewrite (map_ratios_pos (fun a b => flog (fdiv a b)) (fun a b => ln (a / b)))
    by (exact Hpos || exact log_fdiv_pos).
  cbn [seq combine]. unfold dropna at 1. cbn [filter snd is_nan negb].
  apply dropna_all_fin.
Qed.

Lemma simple_column :
  dropna (map (fun q => (fst q, fsub1 (snd q))) (zip_with fdiv prices (shift1 prices))) =
  combine (seq 1 n) (map Fin ss).
Proof.
  rewrite prices_eq, shift1_combine by exact len_prices.
  rewrite zip_with_combine by (apply len_prices || apply len_shift).
  rewrite map_snd_map_combine, shift_pairs. cbn [map fst snd].
  rewrite map_map.
  rewrite (map_ratios_pos (fun a b => fsub1 (fdiv a b)) (fun a b => a / b - 1)).
  - cbn [seq combine]. unfold dropna at 1. cbn [filter snd is_nan negb fsub1 fdiv].
    apply dropna_all_fin.
  - exact Hpos.
  - intros a b _ Hb. apply fsub1_fdiv_pos. exact Hb.
Qed.

Lemma price_column : skipn 1 prices = combine (seq 1 n) (map Fin ps).
Proof. rewrite prices_eq. reflexivity. Qed.

Lemma has_idx_range (i : nat) (xs : list fl) :
  List.length xs = n ->
  has_idx i (combine (seq 1 n) xs) = (1 <=? i) && (i <? 1 + n).
Proof. intros H. rewrite <- H. apply has_idx_combine_seq. Qed.

Lemma union_returns_index (cols : list series) :
  (forall i, existsb (has_idx i) cols = (1 <=? i) && (i <? 1 + n)) ->
  In (combine (seq 1 n) (map Fin rs)) cols ->
  index_union cols = seq 1 n.
Proof.
  intros Hex Hin. unfold index_union.
  rewrite (filter_ext _ (fun i => (1 <=? i) && (i <? S n))) by (intros i; apply Hex).
  assert (Hbound : forall i, (1 <=? i) && (i <? S n) = true -> (i < index_bound cols)%nat).
  { intros i Hi. unfold index_bound. apply Nat.lt_succ_r. apply in_le_fold_max.
    rewrite concat_map, <- flat_map_concat_map. apply in_flat_map.
    exists (combine (seq 1 n) (map Fin rs)). split; [exact Hin|].
    apply has_idx_in_keys. rewrite has_idx_range; [exact Hi|].
    rewrite length_map. apply length_rs. }
  destruct (Nat.le_ge_cases (S n) (index_bound cols)) as [Hle|Hge].
  - rewrite (filter_seq_extend _ (S n)); [apply filter_range_seq | exact Hle|].
    intros i Hi. destruct ((1 <=? i) && (i <? S n)) eqn:E; [|reflexivity].
    apply andb_prop in E. destruct E as [_ E]. apply Nat.ltb_lt in E. lia.
  - rewrite <- filter_range_seq. symmetry. apply filter_seq_extend; [exact Hge|].
    intros i Hi. destruct ((1 <=? i) && (i <? S n)) eqn:E; [|reflexivity].
    specialize (Hbound i E). lia.
Qed.

End PositivePrices.

Lemma col_lookup_log_returns (s : series) (rest : list (string * series)) :
  col_lookup "log_returns" (frame_of_dict (("log_returns"%string, s) :: rest)) =
  Some (reindex (index_union (s :: map snd rest)) s).
Proof. reflexivity. Qed.

(** C8: for positive prices p(1..N) the log-return column has N-1 entries,
    the t-th being ln(p(t+1)/p(t)), and the exponential of their sum is
    p(N)/p(1). *)
Theorem calculate_returns_log_roundtrip (df : frame) (ps : list R) :
  select_prices df = inr (map Fin ps) ->
  ps <> [] ->
  Forall (fun x => 0 < x) ps ->
  exists out rs,
    calculate_returns df = ([], Some out) /\
    col_lookup "log_returns" out =
      Some (combine (seq 1 (List.length ps - 1)) (map Fin rs)) /\
    List.length rs = (List.length ps - 1)%nat /\
    (forall i, (i < List.length ps - 1)%nat ->
       nth i rs 0 = ln (nth (S i) ps 1 / nth i ps 1)) /\
    exp (fold_right Rplus 0 rs) = last ps 1 / hd 1 ps.
Proof.
  intros Hsel Hne Hpos. destruct ps as [|p ps]; [contradiction|].
  set (rs := map log_ratio (combine ps (p :: ps))).
  assert (Hlen : List.length rs = List.length ps) by apply length_rs.
  exists (returns_frame (map Fin (p :: ps))), rs.
  replace (List.length (p :: ps) - 1)%nat with (List.length ps) by (simpl; lia).
  split; [unfold calculate_returns, calculate_returns_body; rewrite Hsel; reflexivity|].
  split.
  - unfold returns_frame. cbv zeta.
    rewrite (log_column p ps Hpos), (simple_column p ps Hpos), price_column.
    fold rs. rewrite col_lookup_log_returns. f_equal.
    rewrite (union_returns_index p ps).
    + rewrite <- Hlen. rewrite <- (length_map Fin rs).
      apply reindex_combine_seq.
    + intros i. cbn [map snd existsb].
      rewrite (has_idx_range ps i (map Fin rs)) by (rewrite length_map; exact Hlen).
      rewrite (has_idx_range ps i (map Fin ps)) by apply length_map.
      destruct ((1 <=? i) && (i <? 1 + List.length ps)) eqn:E; [reflexivity|].
      destruct (has_idx i (skipn 1 (combine (seq 1 (List.length ps)) _))) eqn:E2;
        [|reflexivity].
      apply has_idx_skipn in E2.
      rewrite has_idx_range in E2 by (rewrite length_map; apply length_ss).
      congruence.
    + left. reflexivity.
  - split; [exact Hlen|]. split.
    + intros i Hi. unfold rs.
      replace 0 with (log_ratio (1, 1)) by (unfold log_ratio; simpl; rewrite Rdiv_1_r; apply ln_1).
      rewrite map_nth, nth_combine_lt by (simpl; lia). reflexivity.
    + apply exp_sum_log_ratios. exact Hpos.
Qed.

Definition df_positive : frame := [("Adj Close"%string, [Fin 2; Fin 4; Fin 8])].

Lemma calculate_returns_log_roundtrip_witness :
  exists out rs,
    calculate_returns df_positive = ([], Some out) /\
    col_lookup "log_returns" out = Some (combine (seq 1 2) (map Fin rs)) /\
    List.length rs = 2%nat /\
    (forall i, (i < 2)%nat -> nth i rs 0 = ln (nth (S i) [2; 4; 8] 1 / nth i [2; 4; 8] 1)) /\
    exp (fold_right Rplus 0 rs) = 8 / 2.
Proof.
  apply (calculate_returns_log_roundtrip df_positive [2; 4; 8]).
  - reflexivity.
  - discriminate.
  - repeat constructor; lra.
Defined.

End ReturnsFacts.

Module GarchFacts.
Import Returns Garch.
Local Open Scope R_scope.

Lemma clean_map_fin (rs : list R) :
  filter (fun x => negb (is_nan x)) (map Fin rs) = map Fin rs.
Proof. induction rs as [|r rs IH]; simpl; [reflexivity|]. rewrite IH. reflexivity. Qed.

Lemma fold_left_snoc {A : Type} (l acc : list A) :
  fold_left (fun d kv => d ++ [kv]) l acc = acc ++ l.
Proof.
  revert acc; induction l as [|x l IH]; intros acc; simpl.
  - symmetry. apply app_nil_r.
  - rewrite IH, <- app_assoc. reflexivity.
Qed.

Lemma sqrt_div_10000 (v : R) : 0 <= v -> sqrt (v / 10000) = sqrt v / 100.
Proof.
  intros Hv. replace 10000 with (100 * 100) by lra.
  rewrite sqrt_div_alt by lra. rewrite sqrt_square by lra. reflexivity.
Qed.

(** C7 (amended): fewer than 50 non-NaN returns make [fit_garch] print the
    insufficient-data message and return None without touching the instance
    or calling [arch]; from 50 on, [arch] is called on the returns times 100
    and its fit is returned. *)
Theorem fit_garch_min_observations (lib : ArchLib) (returns : list fl)
  (p q : nat) (dist : string) (self : GARCHModel) :
  ((List.length (filter (fun x => negb (is_nan x)) returns) < 50)%nat ->
   fit_garch lib returns p q dist self =
     (self, (["Error fitting GARCH model: " ++ insufficient_msg]%string, None))) /\
  ((50 <= List.length (filter (fun x => negb (is_nan x)) returns))%nat ->
   forall m f,
     arch_model lib (map fmul100 (filter (fun x => negb (is_nan x)) returns)) p q dist = inr m ->
     arch_fit lib m = inr f ->
     fit_garch lib returns p q dist self =
       ({| model := Some m; fitted_model := Some f |}, ([], Some f))).
Proof.
  unfold fit_garch, fit_garch_body. split.
  - intros Hlt. apply Nat.ltb_lt in Hlt. rewrite Hlt. reflexivity.
  - intros Hge m f Hm Hf. apply Nat.ltb_ge in Hge. rewrite Hge, Hm, Hf. reflexivity.
Qed.

Definition returns_n (n : nat) : list fl := map Fin (repeat (1 / 100) n).

Lemma fit_garch_min_observations_witness :
  fit_garch vt_lib (returns_n 49) 1 1 "normal" GARCHModel_init =
    (GARCHModel_init, (["Error fitting GARCH model: " ++ insufficient_msg]%string, None)) /\
  fit_garch vt_lib (returns_n 50) 1 1 "normal" GARCHModel_init =
    ({| model := Some {| am_y := map fmul100 (returns_n 50); am_p := 1; am_q := 1;
                         am_dist := "normal" |};
        fitted_model := Some (vt_fit {| am_y := map fmul100 (returns_n 50); am_p := 1;
                                        am_q := 1; am_dist := "normal" |}) |},
     ([], Some (vt_fit {| am_y := map fmul100 (returns_n 50); am_p := 1; am_q := 1;
                          am_dist := "normal" |}))).
Proof.
  split.
  - apply (proj1 (fit_garch_min_observations vt_lib (returns_n 49) 1 1 "normal" GARCHModel_init)).
    unfold returns_n. rewrite clean_map_fin, length_map, repeat_length. lia.
  - apply (proj2 (fit_garch_min_observations vt_lib (returns_n 50) 1 1 "normal" GARCHModel_init)).
    + unfold returns_n. rewrite clean_map_fin, length_map, repeat_length. lia.
    + unfold returns_n. rewrite clean_map_fin. reflexivity.
    + reflexivity.
Defined.

(** C7 counterexample: with 49 observations the caller gets None and a
    printed line, not an insufficient-data error value. *)
Lemma fit_garch_49_returns_none :
  fit_garch vt_lib (returns_n 49) 1 1 "normal" GARCHModel_init =
    (GARCHModel_init,
     (["Error fitting GARCH model: Insufficient data for GARCH modeling (minimum 50 observations required)"%string],
      None)).
Proof. reflexivity. Qed.

(** C4 (amended): the returns are multiplied by 100 before [arch] sees
    them; [forecast_volatility] divides the forecast variances by 10000 and
    their square roots by 100 (so each reported volatility is the square root
    of the reported variance); [fit_garch] returns, and [get_model_summary]
    reports, the parameters, log-likelihood, AIC and BIC of the fit to the
    scaled series unchanged. *)
Theorem garch_scaling (lib : ArchLib) (returns : list fl) (p q : nat) (dist : string)
  (self : GARCHModel) (m : ArchModel) (f : ArchResult) :
  (50 <= List.length (filter (fun x => negb (is_nan x)) returns))%nat ->
  arch_model lib (map fmul100 (filter (fun x => negb (is_nan x)) returns)) p q dist = inr m ->
  arch_fit lib m = inr f ->
  snd (fit_garch lib returns p q dist self) = ([], Some f) /\
  get_model_summary (Some f) =
    ([], Some {| parameters := params f; s_aic := aic f; s_bic := bic f;
                 s_loglikelihood := loglikelihood f; num_observations := nobs f |}) /\
  (forall h V, arch_forecast_variance lib f h = inr V ->
     forecast_volatility lib (Some f) h =
       ([], Some {| volatility_forecast := map (fun v => sqrt v / 100) V;
                    variance_forecast := map (fun v => v / 10000) V;
                    forecast_horizon := h |}) /\
     (Forall (fun v => 0 <= v) V ->
        map sqrt (map (fun v => v / 10000) V) = map (fun v => sqrt v / 100) V)).
Proof.
  intros Hge Hm Hf. split; [|split].
  - unfold fit_garch, fit_garch_body. apply Nat.ltb_ge in Hge. rewrite Hge, Hm, Hf.
    reflexivity.
  - unfold get_model_summary, get_model_summary_body. simpl.
    rewrite fold_left_snoc. reflexivity.
  - intros h V HV. split.
    + unfold forecast_volatility, forecast_volatility_body. simpl. rewrite HV. simpl.
      rewrite map_map. reflexivity.
    + intros Hnn. rewrite map_map. apply map_ext_in. intros v Hv.
      apply sqrt_div_10000. rewrite Forall_forall in Hnn. apply Hnn. exact Hv.
Qed.

Lemma sum_sq_repeat (c : R) (n : nat) :
  fold_right (fun y acc => y * y + acc) 0 (repeat c n) = INR n * (c * c).
Proof.
  induction n as [|n IH]; simpl repeat; cbn [fold_right]; [simpl; lra|].
  rewrite IH, S_INR. lra.
Qed.

Lemma mean_sq_repeat (c : R) (n : nat) :
  (0 < n)%nat -> mean_sq (repeat c n) = c * c.
Proof.
  intros Hn. unfold mean_sq. rewrite sum_sq_repeat, repeat_length.
  field. apply not_0_INR. lia.
Qed.

Lemma fin_part_scaled (x : R) (n : nat) :
  map fin_part (map fmul100 (map Fin (repeat x n))) = repeat (x * 100) n.
Proof. induction n as [|n IH]; simpl; [reflexivity|]. rewrite IH. reflexivity. Qed.

Lemma garch_scaling_witness :
  (50 <= List.length (filter (fun x => negb (is_nan x)) (returns_n 50)))%nat /\
  snd (fit_garch vt_lib (returns_n 50) 1 1 "normal" GARCHModel_init) =
    ([], Some (vt_fit {| am_y := map fmul100 (returns_n 50); am_p := 1; am_q := 1;
                         am_dist := "normal" |})).
Proof.
  assert (Hlen : (50 <= List.length (filter (fun x => negb (is_nan x)) (returns_n 50)))%nat)
    by (unfold returns_n; rewrite clean_map_fin, length_map, repeat_length; lia).
  split; [exact Hlen|].
  apply (proj1 (garch_scaling vt_lib (returns_n 50) 1 1 "normal" GARCHModel_init
           {| am_y := map fmul100 (returns_n 50); am_p := 1; am_q := 1; am_dist := "normal" |}
           (vt_fit {| am_y := map fmul100 (returns_n 50); am_p := 1; am_q := 1;
                      am_dist := "normal" |}) Hlen
           ltac:(unfold returns_n; rewrite clean_map_fin; reflexivity) eq_refl)).
Defined.

(** C4 counterexample: fifty returns of 0.01. With the variance-targeting
    stand-in for [arch], [get_model_summary] reports omega = 0.05, the value
    for the returns in percent, while the same estimator on the returns in
    their own units gives 0.000005; the forecast variance is reported in
    return units, 0.0001. *)
Lemma garch_summary_not_rescaled :
  exists f,
    snd (fit_garch vt_lib (returns_n 50) 1 1 "normal" GARCHModel_init) = ([], Some f) /\
    option_map (fun s => Returns.col_lookup "omega" (parameters s))
      (snd (get_model_summary (Some f))) = Some (Some (5 / 100)) /\
    Returns.col_lookup "omega"
      (params (vt_fit {| am_y := returns_n 50; am_p := 1; am_q := 1; am_dist := "normal" |}))
      = Some (5 / 1000000) /\
    option_map variance_forecast (snd (forecast_volatility vt_lib (Some f) 1)) =
      Some [1 / 10000].
Proof.
  exists (vt_fit {| am_y := map fmul100 (returns_n 50); am_p := 1; am_q := 1;
                    am_dist := "normal" |}).
  split; [reflexivity|].
  assert (Hs : mean_sq (map fin_part (map fmul100 (returns_n 50))) = 1).
  { unfold returns_n. rewrite fin_part_scaled, mean_sq_repeat by lia. lra. }
  assert (Hu : mean_sq (map fin_part (returns_n 50)) = 1 / 10000).
  { unfold returns_n. rewrite map_map. simpl fin_part.
    rewrite map_id, mean_sq_repeat by lia. lra. }
  split; [|split].
  - cbn [snd get_model_summary get_model_summary_body bind attr ret try_print option_map].
    rewrite fold_left_snoc. unfold vt_fit. cbv zeta. cbn [params am_y].
    rewrite Hs. unfold Returns.col_lookup. simpl. do 2 f_equal. lra.
  - unfold vt_fit. cbv zeta. cbn [params am_y]. rewrite Hu.
    unfold Returns.col_lookup. simpl. f_equal. lra.
  - cbn [snd forecast_volatility forecast_volatility_body bind attr ret try_print option_map].
    unfold vt_lib. cbn [arch_forecast_variance]. unfold vt_fit. cbv zeta.
    cbn [params am_y]. rewrite Hs. simpl. do 2 f_equal. field.
Qed.

End GarchFacts.

Module LjungBoxFacts.
Import Returns Floats LjungBox.
Local Open Scope R_scope.

Lemma map_py_ret {A B : Type} (f : A -> PyM B) (g : A -> B) (l : list A) :
  (forall x, In x l -> f x = ret (g x)) -> map_py f l = ret (map g l).
Proof.
  induction l as [|x l IH]; intros H; simpl; [reflexivity|].
  rewrite H by (left; reflexivity). simpl.
  rewrite IH by (intros y Hy; apply H; right; exact Hy). reflexivity.
Qed.

Lemma map_py_app {A B : Type} (f : A -> PyM B) (l1 l2 : list A) :
  map_py f (l1 ++ l2) = (ys1 <- map_py f l1;; ys2 <- map_py f l2;; ret (ys1 ++ ys2)).
Proof.
  induction l1 as [|x l1 IH]; simpl.
  - destruct (map_py f l2); reflexivity.
  - destruct (f x) as [e|y]; simpl; [reflexivity|]. rewrite IH.
    destruct (map_py f l1) as [e|ys1]; simpl; [reflexivity|].
    destruct (map_py f l2); reflexivity.
Qed.

Lemma fadd_assoc (a b c : fl) : fadd a (fadd b c) = fadd (fadd a b) c.
Proof. destruct a, b, c; simpl; try reflexivity; f_equal; ring. Qed.

Lemma fadd_comm (a b : fl) : fadd a b = fadd b a.
Proof. destruct a, b; simpl; try reflexivity; f_equal; ring. Qed.

(** Python's left-to-right [sum] is the sum of the values. *)
Lemma py_sum_fsum (xs : list fl) : py_sum xs = fsum xs.
Proof.
  unfold py_sum, fsum. apply fold_symmetric; [apply fadd_assoc|].
  intros y. apply fadd_comm.
Qed.

Lemma fsum_map_fin (xs : list R) : fsum (map Fin xs) = Fin (sum xs).
Proof. induction xs as [|x xs IH]; simpl; [reflexivity|]. rewrite IH. reflexivity. Qed.

Lemma autocorr_in_range (s : list R) (k : nat) :
  (k < List.length s)%nat ->
  autocorr s k = np_float (corrcoef (skipn k s) (firstn (List.length s - k) s)).
Proof.
  intros Hk. unfold autocorr. destruct (skipn k s) eqn:E; [|reflexivity].
  apply (f_equal (@List.length R)) in E. rewrite length_skipn in E. simpl in E. lia.
Qed.

Lemma autocorr_out_of_range (s : list R) (k : nat) :
  (List.length s <= k)%nat -> autocorr s k = py_nan.
Proof. intros Hk. unfold autocorr. rewrite skipn_all2 by exact Hk. reflexivity. Qed.

Lemma nth_autocorr_list (s : list R) (L i : nat) :
  (i < L)%nat ->
  nth i (map (fun lag => autocorr s lag) (seq 1 L)) py_nan = autocorr s (S i).
Proof.
  intros Hi.
  rewrite nth_indep with (d' := autocorr s 0%nat) by (rewrite length_map, length_seq; exact Hi).
  rewrite map_nth, seq_nth by exact Hi. reflexivity.
Qed.

Lemma IZR_lag_divisor (n i : nat) :
  IZR (Z.of_nat n - Z.of_nat i - 1) = INR n - INR (S i).
Proof. rewrite !minus_IZR, <- !INR_IZR_INZ, S_INR. simpl. ring. Qed.

Lemma sq_length (z : list R) : List.length (map (fun t => t ^ 2) z) = List.length z.
Proof. apply length_map. Qed.

(** The residuals handed to the tests by [calculate_residuals]. *)
Lemma calculate_residuals_some (f : Garch.ArchResult) :
  Garch.calculate_residuals (Some f) =
    ([], Some (map (fun q => fst q / snd q)
                 (combine (Garch.resid f) (Garch.conditional_volatility f)))).
Proof. reflexivity. Qed.

(** C2: for N > L + 1 the statistic is N(N+2) times the sum over
    k = 1..L of rho(k)^2/(N-k), rho(k) the lag-k autocorrelation of the
    squared standardized residuals, the p-value is 1 - CDF(chi2_L, Q) and
    the critical value the 0.95 quantile of chi2_L; nothing is printed.
    When every rho(k) is a number the statistic is that real number (a
    NaN autocorrelation, as for a constant lagged segment, makes it NaN). *)
Theorem ljung_box_statistic (chi2_cdf : fl -> nat -> fl) (chi2_ppf : R -> nat -> fl)
  (f : Garch.ArchResult) (L : nat) :
  let z := map (fun q => fst q / snd q)
               (combine (Garch.resid f) (Garch.conditional_volatility f)) in
  (L + 1 < List.length z)%nat ->
  ljung_box_test chi2_cdf chi2_ppf (Some f) L =
    ([], Some {| lb_test_statistic := ljung_box_spec_stat z L;
                 lb_p_value := fsub (Fin 1) (chi2_cdf (ljung_box_spec_stat z L) L);
                 lb_lags := L;
                 lb_critical_value := chi2_ppf (95 / 100) L |}) /\
  ((forall k, In k (seq 1 L) -> exists r, rho z k = Fin r) ->
   ljung_box_spec_stat z L =
     Fin (INR (List.length z) * (INR (List.length z) + 2) *
          sum (map (fun k => (Garch.fin_part (rho z k)) ^ 2 / (INR (List.length z) - INR k))
                   (seq 1 L)))).
Proof.
  intros z HL. split.
  - unfold ljung_box_test. rewrite calculate_residuals_some. fold z.
    cbn [fst snd]. unfold ljung_box_body. cbv zeta.
    rewrite (map_py_ret _ (fun i => fdiv (fsq (rho z (S i))) (Fin (INR (List.length z) - INR (S i))))).
    + cbn [bind ret try_print fst snd app].
      replace (fmul _ (py_sum _)) with (ljung_box_spec_stat z L); [reflexivity|].
      unfold ljung_box_spec_stat. cbv zeta.
      rewrite sq_length, mult_INR, plus_INR, py_sum_fsum, <- seq_shift, map_map.
      replace (INR 2) with 2 by (simpl; ring). reflexivity.
    + intros i Hi. apply in_seq in Hi.
      rewrite nth_autocorr_list by lia. rewrite sq_length.
      unfold rho. rewrite autocorr_in_range by (rewrite sq_length; lia).
      unfold lb_term. rewrite IZR_lag_divisor. reflexivity.
  - intros Hfin. unfold ljung_box_spec_stat. cbv zeta.
    rewrite (map_ext_in _ (fun k => Fin ((Garch.fin_part (rho z k)) ^ 2 /
                                          (INR (List.length z) - INR k)))).
    + rewrite <- (map_map (fun k => (Garch.fin_part (rho z k)) ^ 2 /
                                     (INR (List.length z) - INR k)) Fin).
      rewrite fsum_map_fin. reflexivity.
    + intros k Hk. destruct (Hfin k Hk) as [r Hr]. rewrite Hr.
      apply in_seq in Hk.
      assert (Hlt : INR k < INR (List.length z)) by (apply lt_INR; lia).
      unfold fsq, fmul, fdiv. cbn [Garch.fin_part].
      destruct (Req_dec_T (INR (List.length z) - INR k) 0); [lra|]. f_equal. unfold Rdiv. ring.
Qed.

Definition fit_example : Garch.ArchResult :=
  {| Garch.params := []; Garch.resid := [1; 2; 1; 3]; Garch.conditional_volatility := [1; 1; 1; 1];
     Garch.loglikelihood := 0; Garch.aic := 0; Garch.bic := 0; Garch.nobs := 4 |}.

Lemma ljung_box_statistic_witness :
  ljung_box_test (fun x _ => x) (fun _ _ => Fin 6) (Some fit_example) 2 =
    ([], Some {| lb_test_statistic :=
                   ljung_box_spec_stat (map (fun q => fst q / snd q)
                     (combine [1; 2; 1; 3] [1; 1; 1; 1])) 2;
                 lb_p_value := fsub (Fin 1) (ljung_box_spec_stat (map (fun q => fst q / snd q)
                     (combine [1; 2; 1; 3] [1; 1; 1; 1])) 2);
                 lb_lags := 2;
                 lb_critical_value := Fin 6 |}).
Proof.
  exact (proj1 (ljung_box_statistic (fun x _ => x) (fun _ _ => Fin 6) fit_example 2
                  ltac:(simpl; lia))).
Defined.

End LjungBoxFacts.

Module ArchLMFacts.
Import Returns Floats ArchLM.
Local Open Scope R_scope.

Lemma nth_slice (s : list R) (a b j : nat) :
  (j < b - a)%nat -> nth j (slice s a b) 0 = nth (a + j) s 0.
Proof.
  intros H. unfold slice. rewrite nth_firstn.
  destruct (Nat.ltb_spec j (b - a)); [|lia]. apply nth_skipn.
Qed.

Lemma length_slice (s : list R) (a b : nat) :
  (a <= b)%nat -> (b <= List.length s)%nat -> List.length (slice s a b) = (b - a)%nat.
Proof.
  intros H1 H2. unfold slice. rewrite length_firstn, length_skipn. lia.
Qed.

Lemma nth_design_lag (sq : list R) (L i : nat) :
  (i < L)%nat ->
  nth (S i) (design_columns sq L) [] =
  slice sq (L - i - 1) (List.length sq - i - 1).
Proof.
  intros Hi. unfold design_columns. cbv zeta. cbn [nth].
  set (f := fun k => slice sq (L - k - 1) (List.length sq - k - 1)).
  change (nth i (map f (seq 0 L)) [] = f i).
  rewrite nth_indep with (d' := f 0%nat) by (rewrite length_map, length_seq; exact Hi).
  rewrite map_nth, seq_nth by exact Hi. reflexivity.
Qed.

Lemma length_design_columns (sq : list R) (L : nat) :
  List.length (design_columns sq L) = S L.
Proof. unfold design_columns. simpl. rewrite length_map, length_seq. reflexivity. Qed.

Lemma linalg_solve_error gesv (A : list (list R)) (b : list R) (e : py_exc) :
  linalg_solve gesv A b = inl e -> e = LinAlgError.
Proof.
  unfold linalg_solve. destruct (has_zero_column A).
  - intros H. inversion H. reflexivity.
  - destruct (gesv A b); intros H; inversion H; reflexivity.
Qed.

Lemma linalg_solve_zero_column gesv (A : list (list R)) (b : list R) :
  has_zero_column A = true -> linalg_solve gesv A b = inl LinAlgError.
Proof. intros H. unfold linalg_solve. rewrite H. reflexivity. Qed.

Lemma has_zero_column_false (A : list (list R)) :
  (forall j, (j < List.length A)%nat -> exists row, In row A /\ nth j row 0 <> 0) ->
  has_zero_column A = false.
Proof.
  intros H. unfold has_zero_column. apply not_true_is_false. intros Hx.
  apply existsb_exists in Hx. destruct Hx as [j [Hj Hz]]. apply in_seq in Hj.
  destruct (H j ltac:(lia)) as [row [Hrow Hne]].
  unfold zero_column in Hz. rewrite forallb_forall in Hz. specialize (Hz row Hrow).
  unfold Reqb in Hz. destruct (Req_EM_T (nth j row 0) 0); [contradiction | discriminate].
Qed.

Lemma ols_step_error gesv chi2_cdf chi2_ppf (X : list (list R)) (y : list R) (n lags : nat) e :
  linalg_solve gesv (gram X) (xty X y) = inl e ->
  ols_step gesv chi2_cdf chi2_ppf X y n lags = inl e.
Proof. intros H. unfold ols_step. rewrite H. reflexivity. Qed.

Lemma ols_step_ok gesv chi2_cdf chi2_ppf (X : list (list R)) (y : list R) (n lags : nat) beta :
  linalg_solve gesv (gram X) (xty X y) = inr beta ->
  ols_step gesv chi2_cdf chi2_ppf X y n lags =
    inr (let lm_stat := fmul (Fin (INR (n - lags))) (r_squared y (mat_vec X beta (n - lags))) in
         {| lm_test_statistic := lm_stat;
            lm_p_value := fsub (Fin 1) (chi2_cdf lm_stat lags);
            lm_lags := lags;
            lm_critical_value := chi2_ppf (95 / 100) lags |}).
Proof. intros H. unfold ols_step. rewrite H. reflexivity. Qed.

(** [arch_lm_test] on a fit, with at least as many residuals as lags: the
    outcome of the OLS step decides. *)
Lemma arch_lm_test_ols gesv chi2_cdf chi2_ppf (f : Garch.ArchResult) (L : nat) :
  let z := map (fun q => fst q / snd q)
               (combine (Garch.resid f) (Garch.conditional_volatility f)) in
  (L <= List.length z)%nat ->
  let sq := map (fun t => t ^ 2) z in
  arch_lm_test gesv chi2_cdf chi2_ppf (Some f) L =
    match ols_step gesv chi2_cdf chi2_ppf (design_columns sq L) (skipn L sq) (List.length z) L with
    | inl LinAlgError => ([], None)
    | inl e => (["Error performing ARCH-LM test: " ++ exc_str e]%string, None)
    | inr r => ([], Some r)
    end.
Proof.
  intros z HL sq. unfold arch_lm_test. cbn [Garch.calculate_residuals Garch.calculate_residuals_body
    Garch.attr bind ret try_print fst snd]. fold z.
  unfold arch_lm_body. fold sq.
  assert (Hlt : (List.length sq <? L)%nat = false)
    by (apply Nat.ltb_ge; unfold sq; rewrite length_map; exact HL).
  rewrite Hlt. replace (List.length sq) with (List.length z) by (unfold sq; rewrite length_map; reflexivity).
  destruct (ols_step _ _ _ _ _ _ _) as [[]|r]; reflexivity.
Qed.

Lemma Forall_skipn' {A : Type} (P : A -> Prop) (n : nat) (l : list A) :
  Forall P l -> Forall P (skipn n l).
Proof.
  revert l; induction n as [|n IH]; intros l H; [exact H|].
  destruct l as [|x l]; [constructor|]. inversion H; subst. apply IH. assumption.
Qed.

Lemma Forall_firstn' {A : Type} (P : A -> Prop) (n : nat) (l : list A) :
  Forall P l -> Forall P (firstn n l).
Proof.
  revert l; induction n as [|n IH]; intros l H; [constructor|].
  destruct l as [|x l]; [constructor|]. inversion H; subst. constructor; [assumption|].
  apply IH. assumption.
Qed.

Lemma dot_zero_r (a b : list R) : Forall (fun x => x = 0) b -> dot a b = 0.
Proof.
  revert b; induction a as [|x a IH]; intros [|y b] H; try reflexivity.
  inversion H as [|y' b' Hy Hb]; subst.
  specialize (IH b Hb). unfold dot in *. simpl. rewrite IH. ring.
Qed.

(** All-zero standardized residuals and at least one lag: the first lag
    column of X is zero, so is column 1 of X'X. *)
Lemma zero_residuals_zero_column (z : list R) (L : nat) :
  Forall (fun t => t = 0) z -> (1 <= L <= List.length z)%nat ->
  has_zero_column (gram (design_columns (map (fun t => t ^ 2) z) L)) = true.
Proof.
  intros Hz HL. set (sq := map (fun t => t ^ 2) z). set (X := design_columns sq L).
  assert (Hsq : Forall (fun x => x = 0) sq).
  { unfold sq. apply Forall_map. eapply Forall_impl; [|exact Hz].
    intros t ->. simpl. ring. }
  assert (HX : List.length X = S L) by apply length_design_columns.
  unfold has_zero_column. apply existsb_exists. exists 1%nat. split.
  - apply in_seq. unfold gram. rewrite length_map. lia.
  - unfold zero_column. apply forallb_forall. intros row Hrow.
    unfold gram in Hrow. apply in_map_iff in Hrow. destruct Hrow as [a [<- Ha]].
    rewrite nth_indep with (d' := dot a []) by (rewrite length_map; lia).
    rewrite (map_nth (fun b => dot a b)).
    replace (nth 1 X []) with (nth (S 0) X []) by reflexivity.
    unfold X. rewrite nth_design_lag by lia.
    rewrite dot_zero_r.
    + unfold Reqb. destruct (Req_EM_T 0 0); [reflexivity | contradiction].
    + unfold slice. apply Forall_firstn', Forall_skipn'. exact Hsq.
Qed.

Lemma one_minus_unit (c : R) : 0 <= c <= 1 -> 0 <= 1 + - c <= 1.
Proof. lra. Qed.

(** C3 (amended): for N > L the regressors are the intercept and the lags
    1..L of z^2 (column i+1 at row j holds z^2 at time L+j-(i+1)), the
    regressand is z^2 at time L+j. When [np.linalg.solve] raises
    LinAlgError, as it does whenever X'X has a zero column, the method
    returns None and prints nothing; otherwise, with the solver's beta, it
    returns statistic (N-L)*R^2, R^2 = 1 - SSR/TSS, p-value
    1 - CDF(chi2_L, statistic) and critical value the 0.95 quantile of
    chi2_L, and when R^2 is a number in [0,1] (and the CDF in [0,1]) the
    statistic is non-negative and the p-value lies in [0,1]. *)
Theorem arch_lm_regression (gesv : list (list R) -> list R -> option (list fl))
  (chi2_cdf : fl -> nat -> fl) (chi2_ppf : R -> nat -> fl) (f : Garch.ArchResult) (L : nat) :
  let z := map (fun q => fst q / snd q)
               (combine (Garch.resid f) (Garch.conditional_volatility f)) in
  (L < List.length z)%nat ->
  let sq := map (fun t => t ^ 2) z in
  let N := List.length z in
  let X := design_columns sq L in
  let y := skipn L sq in
  List.length X = S L /\
  nth 0 X [] = repeat 1 (N - L)%nat /\
  (forall i, (i < L)%nat -> List.length (nth (S i) X []) = (N - L)%nat /\
     forall j, (j < N - L)%nat -> nth j (nth (S i) X []) 0 = nth (L + j - S i) sq 0) /\
  List.length y = (N - L)%nat /\
  (forall j, nth j y 0 = nth (L + j) sq 0) /\
  (has_zero_column (gram X) = true ->
     arch_lm_test gesv chi2_cdf chi2_ppf (Some f) L = ([], None)) /\
  (forall e, linalg_solve gesv (gram X) (xty X y) = inl e ->
     arch_lm_test gesv chi2_cdf chi2_ppf (Some f) L = ([], None)) /\
  (forall beta, linalg_solve gesv (gram X) (xty X y) = inr beta ->
     exists r,
       arch_lm_test gesv chi2_cdf chi2_ppf (Some f) L = ([], Some r) /\
       lm_test_statistic r = fmul (Fin (INR (N - L))) (r_squared y (mat_vec X beta (N - L))) /\
       lm_p_value r = fsub (Fin 1) (chi2_cdf (lm_test_statistic r) L) /\
       lm_lags r = L /\
       lm_critical_value r = chi2_ppf (95 / 100) L /\
       ((forall x k, exists c, chi2_cdf (Fin x) k = Fin c /\ 0 <= c <= 1) ->
        forall r2, r_squared y (mat_vec X beta (N - L)) = Fin r2 -> 0 <= r2 <= 1 ->
        exists st pv, lm_test_statistic r = Fin st /\ lm_p_value r = Fin pv /\
                      0 <= st /\ 0 <= pv <= 1)).
Proof.
  intros z HL sq N X y.
  assert (Hn : List.length sq = N) by (unfold sq, N; apply length_map).
  pose proof (arch_lm_test_ols gesv chi2_cdf chi2_ppf f L ltac:(fold z; lia)) as Hols.
  cbv zeta in Hols. fold z sq X y in Hols.
  split; [apply length_design_columns|].
  split; [unfold X, design_columns; rewrite Hn; reflexivity|].
  split.
  { intros i Hi. unfold X. rewrite nth_design_lag by exact Hi. rewrite Hn. split.
    - rewrite length_slice by lia. lia.
    - intros j Hj. rewrite nth_slice by lia. f_equal. lia. }
  split; [unfold y; rewrite length_skipn, Hn; reflexivity|].
  split; [intros j; unfold y; apply nth_skipn|].
  split; [|split].
  - intros Hz. rewrite Hols.
    rewrite (ols_step_error _ _ _ _ _ _ _ LinAlgError); [reflexivity|].
    apply linalg_solve_zero_column. exact Hz.
  - intros e He. pose proof (linalg_solve_error _ _ _ _ He) as ->.
    rewrite Hols, (ols_step_error _ _ _ _ _ _ _ _ He). reflexivity.
  - intros beta Hb. rewrite Hols, (ols_step_ok _ _ _ _ _ _ _ _ Hb). cbv zeta.
    eexists. split; [reflexivity|].
    cbn [lm_test_statistic lm_p_value lm_lags lm_critical_value].
    split; [reflexivity|]. split; [reflexivity|]. split; [reflexivity|].
    split; [reflexivity|].
    fold N. intros Hcdf r2 Hr2 [H0 H1]. rewrite Hr2. unfold fmul.
    destruct (Hcdf (INR (N - L) * r2) L) as [c [Hc Hc01]].
    exists (INR (N - L) * r2), (1 + - c). rewrite Hc.
    split; [reflexivity|]. split; [reflexivity|]. split.
    + apply Rmult_le_pos; [apply pos_INR | exact H0].
    + apply one_minus_unit. exact Hc01.
Qed.

Definition fit5 : Garch.ArchResult :=
  {| Garch.params := []; Garch.resid := [1; 2; 1; 3; 1];
     Garch.conditional_volatility := [1; 1; 1; 1; 1];
     Garch.loglikelihood := 0; Garch.aic := 0; Garch.bic := 0; Garch.nobs := 5 |}.

(** A fit with all residuals zero. *)
Definition fit_zero : Garch.ArchResult :=
  {| Garch.params := []; Garch.resid := [0; 0; 0]; Garch.conditional_volatility := [1; 1; 1];
     Garch.loglikelihood := 0; Garch.aic := 0; Garch.bic := 0; Garch.nobs := 3 |}.

(** Stand-ins for the solver and for [chi2]. *)
Definition gesv_example : list (list R) -> list R -> option (list fl) :=
  fun _ _ => Some [Fin 1; Fin 0].

Definition cdf_stub : fl -> nat -> fl := fun _ _ => Fin (1 / 2).

Definition ppf_stub : R -> nat -> fl := fun _ _ => Fin 4.

Lemma fit5_solve :
  let z := map (fun q => fst q / snd q)
               (combine (Garch.resid fit5) (Garch.conditional_volatility fit5)) in
  let sq := map (fun t => t ^ 2) z in
  let X := design_columns sq 1 in
  linalg_solve gesv_example (gram X) (xty X (skipn 1 sq)) = inr [Fin 1; Fin 0].
Proof.
  intros z sq X. unfold linalg_solve. rewrite has_zero_column_false; [reflexivity|].
  intros j Hj. exists (nth 0 (gram X) []). split.
  - apply nth_In. unfold gram. rewrite length_map. unfold X. rewrite length_design_columns. lia.
  - unfold gram in Hj. rewrite length_map in Hj. unfold X in Hj.
    rewrite length_design_columns in Hj.
    destruct j as [|[|j]]; [| |lia]; unfold X, sq, z; simpl; unfold dot, rsum, slice; simpl; lra.
Qed.

Lemma fit_zero_residuals :
  Forall (fun t => t = 0)
    (map (fun q => fst q / snd q)
         (combine (Garch.resid fit_zero) (Garch.conditional_volatility fit_zero))).
Proof. simpl. repeat constructor; unfold Rdiv; ring. Qed.

Lemma arch_lm_regression_witness :
  exists r, arch_lm_test gesv_example cdf_stub ppf_stub (Some fit5) 1 = ([], Some r).
Proof.
  destruct (arch_lm_regression gesv_example cdf_stub ppf_stub fit5 1 ltac:(simpl; lia))
    as (_ & _ & _ & _ & _ & _ & _ & Hok).
  destruct (Hok [Fin 1; Fin 0] fit5_solve) as (r & Hr & _).
  exists r. exact Hr.
Defined.

(** C3 counterexample: N = 3 > L = 1 with all standardized residuals
    zero: X'X has a zero column, the solve raises LinAlgError and the
    method returns None, not a statistic. *)
Lemma arch_lm_zero_residuals_none :
  arch_lm_test gesv_example cdf_stub ppf_stub (Some fit_zero) 1 = ([], None).
Proof.
  rewrite (arch_lm_test_ols gesv_example cdf_stub ppf_stub fit_zero 1 ltac:(simpl; lia)).
  rewrite (ols_step_error _ _ _ _ _ _ _ LinAlgError); [reflexivity|].
  apply linalg_solve_zero_column, zero_residuals_zero_column.
  - exact fit_zero_residuals.
  - simpl. lia.
Qed.

End ArchLMFacts.

Module ErrorFacts.
Import Returns Floats LjungBox.
Local Open Scope R_scope.

Lemma map_py_all_ok {A B : Type} (f : A -> PyM B) (l : list A) :
  (forall x, In x l -> exists y, f x = ret y) -> exists ys, map_py f l = ret ys.
Proof.
  induction l as [|x l IH]; intros H; simpl; [exists []; reflexivity|].
  destruct (H x (or_introl eq_refl)) as [y Hy]. rewrite Hy.
  destruct IH as [ys Hys]; [intros x' Hx'; apply H; right; exact Hx'|].
  simpl. rewrite Hys. exists (y :: ys). reflexivity.
Qed.

(** With 1 <= N <= lags, the term for lag N is Python's [nan] divided by
    the int 0. *)
Lemma ljung_box_body_zero_division chi2_cdf chi2_ppf (z : list R) (L : nat) :
  (1 <= List.length z <= L)%nat ->
  LjungBox.ljung_box_body chi2_cdf chi2_ppf z L = inl (ZeroDivision "float division by zero").
Proof.
  intros H. unfold LjungBox.ljung_box_body. cbv zeta.
  set (sq := map (fun t => t ^ 2) z).
  assert (Hn : List.length sq = List.length z) by (unfold sq; apply length_map).
  set (n := List.length z) in *.
  replace (seq 0 L) with (seq 0 (n - 1) ++ seq (n - 1) (S (L - n))).
  2: { rewrite <- seq_app. f_equal. lia. }
  rewrite LjungBoxFacts.map_py_app.
  destruct (map_py_all_ok
              (fun i => LjungBox.lb_term
                          (nth i (map (fun lag => LjungBox.autocorr sq lag) (seq 1 L)) LjungBox.py_nan)
                          (Z.of_nat (List.length sq) - Z.of_nat i - 1))
              (seq 0 (n - 1))) as [ys Hys].
  { intros i Hi. apply in_seq in Hi.
    rewrite LjungBoxFacts.nth_autocorr_list by lia.
    rewrite LjungBoxFacts.autocorr_in_range by lia.
    eexists. reflexivity. }
  rewrite Hys. cbn [seq LjungBox.map_py bind ret].
  rewrite LjungBoxFacts.nth_autocorr_list by lia.
  rewrite LjungBoxFacts.autocorr_out_of_range by lia.
  unfold LjungBox.lb_term.
  replace (Z.of_nat (List.length sq) - Z.of_nat (n - 1) - 1)%Z with 0%Z by lia.
  reflexivity.
Qed.

(** C5 (amended): each method catches whatever is raised inside it, prints
    one line naming the operation followed by the exception's message, and
    returns None. The two tests run [calculate_residuals] first: on a
    failed fit they print its line and return None. The Ljung-Box test
    with at least one residual and no fewer lags than residuals fails with
    Python's "float division by zero". A LinAlgError in the ARCH-LM OLS
    step makes [arch_lm_test] return None without printing. No error value
    reaches the caller. *)
Theorem core_errors_become_none :
  (forall lib returns p q dist self e,
     snd (Garch.fit_garch_body lib returns p q dist self) = inl e ->
     snd (Garch.fit_garch lib returns p q dist self) =
       (["Error fitting GARCH model: " ++ exc_str e]%string, None)) /\
  (forall lib model_fit h e,
     Garch.forecast_volatility_body lib model_fit h = inl e ->
     Garch.forecast_volatility lib model_fit h =
       (["Error generating forecasts: " ++ exc_str e]%string, None)) /\
  (forall model_fit e,
     Garch.get_model_summary_body model_fit = inl e ->
     Garch.get_model_summary model_fit =
       (["Error extracting model summary: " ++ exc_str e]%string, None)) /\
  (forall model_fit e,
     Garch.calculate_residuals_body model_fit = inl e ->
     Garch.calculate_residuals model_fit =
       (["Error calculating residuals: " ++ exc_str e]%string, None)) /\
  (forall chi2_cdf chi2_ppf L,
     LjungBox.ljung_box_test chi2_cdf chi2_ppf None L =
       (["Error calculating residuals: 'NoneType' object has no attribute 'resid'"]%string,
        None)) /\
  (forall chi2_cdf chi2_ppf (f : Garch.ArchResult) L e,
     LjungBox.ljung_box_body chi2_cdf chi2_ppf
       (map (fun q => fst q / snd q) (combine (Garch.resid f) (Garch.conditional_volatility f)))
       L = inl e ->
     LjungBox.ljung_box_test chi2_cdf chi2_ppf (Some f) L =
       (["Error performing Ljung-Box test: " ++ exc_str e]%string, None)) /\
  (forall chi2_cdf chi2_ppf (f : Garch.ArchResult) L,
     (1 <= List.length (map (fun q => (fst q / snd q)%R)
                          (combine (Garch.resid f) (Garch.conditional_volatility f))) <= L)%nat ->
     LjungBox.ljung_box_test chi2_cdf chi2_ppf (Some f) L =
       (["Error performing Ljung-Box test: float division by zero"]%string, None)) /\
  (forall gesv chi2_cdf chi2_ppf L,
     ArchLM.arch_lm_test gesv chi2_cdf chi2_ppf None L =
       (["Error calculating residuals: 'NoneType' object has no attribute 'resid'"]%string,
        None)) /\
  (forall gesv chi2_cdf chi2_ppf (f : Garch.ArchResult) L e,
     ArchLM.arch_lm_body gesv chi2_cdf chi2_ppf
       (map (fun q => fst q / snd q) (combine (Garch.resid f) (Garch.conditional_volatility f)))
       L = inl e ->
     ArchLM.arch_lm_test gesv chi2_cdf chi2_ppf (Some f) L =
       (["Error performing ARCH-LM test: " ++ exc_str e]%string, None)) /\
  (forall gesv chi2_cdf chi2_ppf (f : Garch.ArchResult) L,
     let z := map (fun q => fst q / snd q)
                  (combine (Garch.resid f) (Garch.conditional_volatility f)) in
     (L <= List.length z)%nat ->
     let sq := map (fun t => t ^ 2) z in
     let X := ArchLM.design_columns sq L in
     ArchLM.linalg_solve gesv (ArchLM.gram X) (ArchLM.xty X (skipn L sq)) = inl LinAlgError ->
     ArchLM.arch_lm_test gesv chi2_cdf chi2_ppf (Some f) L = ([], None)).
Proof.
  split; [|split; [|split; [|split; [|split; [|split; [|split; [|split; [|split]]]]]]]].
  - intros lib returns p q dist self e He. unfold Garch.fit_garch. cbn [snd].
    rewrite He. reflexivity.
  - intros lib model_fit h e He. unfold Garch.forecast_volatility. rewrite He. reflexivity.
  - intros model_fit e He. unfold Garch.get_model_summary. rewrite He. reflexivity.
  - intros model_fit e He. unfold Garch.calculate_residuals. rewrite He. reflexivity.
  - intros chi2_cdf chi2_ppf L. reflexivity.
  - intros chi2_cdf chi2_ppf f L e He. unfold LjungBox.ljung_box_test.
    rewrite LjungBoxFacts.calculate_residuals_some. cbn [fst snd]. rewrite He. reflexivity.
  - intros chi2_cdf chi2_ppf f L HL. unfold LjungBox.ljung_box_test.
    rewrite LjungBoxFacts.calculate_residuals_some. cbn [fst snd].
    rewrite ljung_box_body_zero_division by exact HL. reflexivity.
  - intros gesv chi2_cdf chi2_ppf L. reflexivity.
  - intros gesv chi2_cdf chi2_ppf f L e He. unfold ArchLM.arch_lm_test.
    rewrite LjungBoxFacts.calculate_residuals_some. cbn [fst snd]. rewrite He. reflexivity.
  - intros gesv chi2_cdf chi2_ppf f L z HL sq X He.
    rewrite (ArchLMFacts.arch_lm_test_ols gesv chi2_cdf chi2_ppf f L HL).
    rewrite (ArchLMFacts.ols_step_error _ _ _ _ _ _ _ _ He). reflexivity.
Qed.

(** A fit with two residuals. *)
Definition fit_two : Garch.ArchResult :=
  {| Garch.params := []; Garch.resid := [1; -1]; Garch.conditional_volatility := [1; 1];
     Garch.loglikelihood := 0; Garch.aic := 0; Garch.bic := 0; Garch.nobs := 2 |}.

Lemma core_errors_become_none_witness :
  LjungBox.ljung_box_test ArchLMFacts.cdf_stub ArchLMFacts.ppf_stub (Some fit_two) 3 =
    (["Error performing Ljung-Box test: float division by zero"]%string, None) /\
  snd (Garch.fit_garch Garch.vt_lib (GarchFacts.returns_n 49) 1 1 "normal"
         Garch.GARCHModel_init) =
    (["Error fitting GARCH model: " ++ Garch.insufficient_msg]%string, None).
Proof.
  split.
  - apply (proj1 (proj2 (proj2 (proj2 (proj2 (proj2 (proj2 core_errors_become_none))))))
             ArchLMFacts.cdf_stub ArchLMFacts.ppf_stub fit_two 3%nat).
    simpl. lia.
  - apply (proj1 core_errors_become_none _ _ _ _ _ _ (ValueError Garch.insufficient_msg)).
    reflexivity.
Defined.

(** C5 counterexample: three standardized residuals, all zero, L = 1.
    X'X has a zero column, the OLS step raises LinAlgError and the caller
    receives None with nothing printed, not a numerical-instability
    error. *)
Lemma arch_lm_singular_swallowed :
  (let sq := map (fun t => t ^ 2)
                 (map (fun q => fst q / snd q)
                      (combine (Garch.resid ArchLMFacts.fit_zero)
                               (Garch.conditional_volatility ArchLMFacts.fit_zero))) in
   ArchLM.ols_step ArchLMFacts.gesv_example ArchLMFacts.cdf_stub ArchLMFacts.ppf_stub
     (ArchLM.design_columns sq 1) (skipn 1 sq) 3 1 = inl LinAlgError) /\
  ArchLM.arch_lm_test ArchLMFacts.gesv_example ArchLMFacts.cdf_stub ArchLMFacts.ppf_stub
    (Some ArchLMFacts.fit_zero) 1 = ([], None).
Proof.
  assert (Hols :
    let sq := map (fun t => t ^ 2)
                  (map (fun q => fst q / snd q)
                       (combine (Garch.resid ArchLMFacts.fit_zero)
                                (Garch.conditional_volatility ArchLMFacts.fit_zero))) in
    ArchLM.ols_step ArchLMFacts.gesv_example ArchLMFacts.cdf_stub ArchLMFacts.ppf_stub
      (ArchLM.design_columns sq 1) (skipn 1 sq) 3 1 = inl LinAlgError).
  { intros sq. apply ArchLMFacts.ols_step_error, ArchLMFacts.linalg_solve_zero_column.
    apply ArchLMFacts.zero_residuals_zero_column.
    - exact ArchLMFacts.fit_zero_residuals.
    - simpl. lia. }
  split; [exact Hols|].
  rewrite (ArchLMFacts.arch_lm_test_ols _ _ _ ArchLMFacts.fit_zero 1 ltac:(simpl; lia)).
  cbv zeta in Hols. simpl List.length. rewrite Hols. reflexivity.
Qed.

End ErrorFacts.

Module SessionFacts.
Import Returns Garch Session.
Local Open Scope R_scope.













End SessionFacts.


(* ------------------------------------------------------------------ *)
(** ** The GARCH wrapper beyond the fit: edge behaviour and consistency *)

Module WrapperFacts.
Import Returns Garch.
Local Open Scope R_scope.

(** X1: a failed fit ([None]) passed on to the other methods: each prints
    the AttributeError of the first attribute it reads and returns None;
    the two tests print the residuals' message, not their own. *)
Theorem failed_fit_downstream (lib : ArchLib) (horizon lags : nat)
  (cdf : Returns.fl -> nat -> Returns.fl) (ppf : R -> nat -> Returns.fl)
  (gesv : list (list R) -> list R -> option (list Returns.fl)) :
  forecast_volatility lib None horizon =
    (["Error generating forecasts: 'NoneType' object has no attribute 'forecast'"%string], None) /\
  get_model_summary None =
    (["Error extracting model summary: 'NoneType' object has no attribute 'params'"%string], None) /\
  calculate_residuals None =
    (["Error calculating residuals: 'NoneType' object has no attribute 'resid'"%string], None) /\
  LjungBox.ljung_box_test cdf ppf None lags =
    (["Error calculating residuals: 'NoneType' object has no attribute 'resid'"%string], None) /\
  ArchLM.arch_lm_test gesv cdf ppf None lags =
    (["Error calculating residuals: 'NoneType' object has no attribute 'resid'"%string], None).
Proof. repeat split. Qed.

Lemma forallb_filter_not_nan (xs : list fl) :
  Forall (fun x => is_nan x = false) (filter (fun x => negb (is_nan x)) xs).
Proof.
  apply Forall_forall. intros x Hx. apply filter_In in Hx.
  destruct Hx as [_ Hx]. destruct (is_nan x); [discriminate | reflexivity].
Qed.

Lemma fmul100_not_nan (xs : list fl) :
  Forall (fun x => is_nan x = false) xs -> Forall (fun x => is_nan x = false) (map fmul100 xs).
Proof.
  intros H. apply Forall_map. eapply Forall_impl; [|exact H].
  intros [r| | |] Hx; simpl in *; congruence.
Qed.

(** X3: [fit_garch] hands the [arch] library only NaN-free data of at least
    50 values: two libraries that agree on such inputs (and fit alike) give
    the same result and the same instance state, whatever the returns. *)
Theorem fit_garch_arch_sees_clean_data (lib1 lib2 : ArchLib) (returns : list fl)
  (p q : nat) (dist : string) (self : GARCHModel) :
  (forall y, (50 <= List.length y)%nat -> Forall (fun x => is_nan x = false) y ->
             arch_model lib1 y p q dist = arch_model lib2 y p q dist) ->
  (forall m, arch_fit lib1 m = arch_fit lib2 m) ->
  fit_garch lib1 returns p q dist self = fit_garch lib2 returns p q dist self.
Proof.
  intros Hm Hf. unfold fit_garch, fit_garch_body. cbv zeta.
  destruct (List.length (filter (fun x => negb (is_nan x)) returns) <? 50)%nat eqn:E;
    [reflexivity|].
  apply Nat.ltb_ge in E.
  rewrite Hm.
  - destruct (arch_model lib2 _ p q dist); [reflexivity|]. rewrite Hf. reflexivity.
  - rewrite length_map. exact E.
  - apply fmul100_not_nan, forallb_filter_not_nan.
Qed.

(** [vt_lib] with an [arch_model] that refuses short inputs. *)
Definition vt_lib_strict : ArchLib := {|
  arch_model := fun y p q d =>
    if (List.length y <? 50)%nat then raise (ValueError "too few observations")
    else arch_model vt_lib y p q d;
  arch_fit := arch_fit vt_lib;
  arch_forecast_variance := arch_forecast_variance vt_lib
|}.

Lemma fit_garch_arch_sees_clean_data_witness :
  fit_garch vt_lib (NaN :: map Fin (repeat (1 / 100) 60)) 1 1 "normal" GARCHModel_init =
  fit_garch vt_lib_strict (NaN :: map Fin (repeat (1 / 100) 60)) 1 1 "normal" GARCHModel_init.
Proof.
  apply fit_garch_arch_sees_clean_data.
  - intros y Hy _. unfold vt_lib_strict. cbn [arch_model].
    destruct (List.length y <? 50)%nat eqn:E; [apply Nat.ltb_lt in E; lia | reflexivity].
  - intros m. reflexivity.
Defined.

End WrapperFacts.

(* ------------------------------------------------------------------ *)
(** ** The ARCH-LM test at the edges *)

Module ArchLMEdgeFacts.
Import Returns Floats ArchLM.
Local Open Scope R_scope.

Lemma arch_lm_negative_dimension gesv (chi2_cdf : fl -> nat -> fl) (chi2_ppf : R -> nat -> fl)
  (f : Garch.ArchResult) (lags : nat) :
  (List.length (map (fun q => (fst q / snd q)%R)
                  (combine (Garch.resid f) (Garch.conditional_volatility f))) < lags)%nat ->
  arch_lm_test gesv chi2_cdf chi2_ppf (Some f) lags =
    (["Error performing ARCH-LM test: negative dimensions are not allowed"%string], None).
Proof.
  intros H. unfold arch_lm_test. rewrite LjungBoxFacts.calculate_residuals_some.
  cbn [fst snd]. unfold arch_lm_body. cbv zeta. rewrite length_map.
  apply Nat.ltb_lt in H. rewrite H. reflexivity.
Qed.

(** X4: with fewer standardized residuals than lags, [np.ones] gets a
    negative dimension: the method prints the ValueError and returns None. *)
Theorem arch_lm_too_few_residuals gesv (chi2_cdf : fl -> nat -> fl) (chi2_ppf : R -> nat -> fl)
  (f : Garch.ArchResult) (lags : nat) :
  (List.length (map (fun q => (fst q / snd q)%R)
                  (combine (Garch.resid f) (Garch.conditional_volatility f))) < lags)%nat ->
  arch_lm_test gesv chi2_cdf chi2_ppf (Some f) lags =
    (["Error performing ARCH-LM test: negative dimensions are not allowed"%string], None).
Proof. apply arch_lm_negative_dimension. Qed.

Lemma arch_lm_too_few_residuals_witness :
  arch_lm_test ArchLMFacts.gesv_example ArchLMFacts.cdf_stub ArchLMFacts.ppf_stub
    (Some ErrorFacts.fit_two) 5 =
    (["Error performing ARCH-LM test: negative dimensions are not allowed"%string], None).
Proof. apply arch_lm_too_few_residuals. simpl. lia. Defined.

Lemma dot_nil_r (a : list R) : dot a [] = 0.
Proof. unfold dot. rewrite combine_nil. reflexivity. Qed.

(** X5: with exactly as many residuals as lags the regression has no rows,
    X'X is the zero matrix, [np.linalg.solve] raises LinAlgError and the
    method returns None without printing. *)
Theorem arch_lm_no_regression_rows gesv (chi2_cdf : fl -> nat -> fl) (chi2_ppf : R -> nat -> fl)
  (f : Garch.ArchResult) :
  let z := map (fun q => fst q / snd q)
               (combine (Garch.resid f) (Garch.conditional_volatility f)) in
  arch_lm_test gesv chi2_cdf chi2_ppf (Some f) (List.length z) = ([], None).
Proof.
  intros z.
  rewrite (ArchLMFacts.arch_lm_test_ols gesv chi2_cdf chi2_ppf f (List.length z) (le_n _)).
  cbv zeta. fold z.
  rewrite (ArchLMFacts.ols_step_error _ _ _ _ _ _ _ LinAlgError); [reflexivity|].
  apply ArchLMFacts.linalg_solve_zero_column.
  set (X := design_columns (map (fun t => t ^ 2) z) (List.length z)).
  assert (H0 : nth 0 X [] = []).
  { unfold X, design_columns. cbn [nth]. rewrite length_map, Nat.sub_diag. reflexivity. }
  unfold has_zero_column. apply existsb_exists. exists 0%nat. split.
  - apply in_seq. unfold gram. rewrite length_map. unfold X.
    rewrite ArchLMFacts.length_design_columns. lia.
  - unfold zero_column. apply forallb_forall. intros row Hrow.
    unfold gram in Hrow. apply in_map_iff in Hrow. destruct Hrow as [a [<- Ha]].
    rewrite nth_indep with (d' := dot a [])
      by (rewrite length_map; unfold X; rewrite ArchLMFacts.length_design_columns; lia).
    rewrite (map_nth (fun b => dot a b)), H0, dot_nil_r.
    unfold Reqb. destruct (Req_EM_T 0 0); [reflexivity | contradiction].
Qed.

(** A float that is NaN, +inf or a non-negative number. *)
Definition nonneg_ext (a : fl) : Prop :=
  a = NaN \/ a = PInf \/ exists x, a = Fin x /\ 0 <= x.

Lemma fsq_nonneg_ext (a : fl) : nonneg_ext (fsq a).
Proof.
  unfold nonneg_ext, fsq. destruct a as [x| | |]; simpl; auto.
  right; right. exists (x * x). split; [reflexivity|]. nra.
Qed.

Lemma fadd_nonneg_ext (a b : fl) : nonneg_ext a -> nonneg_ext b -> nonneg_ext (fadd a b).
Proof.
  unfold nonneg_ext.
  intros [->|[->|[x [-> Hx]]]] [->|[->|[y [-> Hy]]]]; simpl; auto.
  right; right. exists (x + y). split; [reflexivity | lra].
Qed.

Lemma fsum_nonneg_ext (l : list fl) : Forall nonneg_ext l -> nonneg_ext (fsum l).
Proof.
  induction 1 as [|a l Ha Hl IH]; simpl.
  - right; right. exists 0. split; [reflexivity | lra].
  - apply fadd_nonneg_ext; assumption.
Qed.

Lemma fdiv_nonneg_ext (a b : fl) : nonneg_ext a -> nonneg_ext b -> nonneg_ext (fdiv a b).
Proof.
  unfold nonneg_ext.
  intros [->|[->|[x [-> Hx]]]] [->|[->|[y [-> Hy]]]]; simpl; auto.
  - destruct (Rlt_dec y 0); [lra | auto].
  - right; right. exists 0. split; [reflexivity | lra].
  - destruct (Req_dec_T y 0) as [Ey|Ey].
    + destruct (Req_dec_T x 0); [auto|]. destruct (Rlt_dec 0 x); [auto | lra].
    + right; right. exists (x / y). split; [reflexivity|].
      unfold Rdiv. apply Rmult_le_pos; [exact Hx|]. left. apply Rinv_0_lt_compat. lra.
Qed.

Lemma ssr_tss_ratio (y : list R) (fv : list fl) :
  r_squared y fv = NaN \/ r_squared y fv = NInf \/
  exists r2, r_squared y fv = Fin r2 /\ r2 <= 1.
Proof.
  unfold r_squared. cbv zeta.
  assert (Hq : nonneg_ext
     (fdiv (fsum (map (fun p => fsq (fsub (Fin (fst p)) (snd p))) (combine y fv)))
           (fsum (map (fun v => fsq (fsub (Fin v) (fdiv (Fin (ArchLM.rsum y))
                                                        (Fin (INR (List.length y)))))) y)))).
  { apply fdiv_nonneg_ext; apply fsum_nonneg_ext; apply Forall_forall;
      intros x Hx; apply in_map_iff in Hx; destruct Hx as [p [<- _]]; apply fsq_nonneg_ext. }
  destruct Hq as [->|[->|[q [-> Hq]]]]; simpl; auto.
  right; right. exists (1 + - q). split; [reflexivity | lra].
Qed.

(** X6: the LM statistic is NaN, -inf, or a number that never exceeds the
    number of regression rows N - L (with the IEEE division of line 269,
    SSR/TSS is NaN, +inf or a non-negative number). *)
Theorem arch_lm_statistic_at_most_rows gesv (chi2_cdf : fl -> nat -> fl) (chi2_ppf : R -> nat -> fl)
  (f : Garch.ArchResult) (lags : nat) (msgs : list string) (r : LMReport) :
  let z := map (fun q => fst q / snd q)
               (combine (Garch.resid f) (Garch.conditional_volatility f)) in
  arch_lm_test gesv chi2_cdf chi2_ppf (Some f) lags = (msgs, Some r) ->
  lm_test_statistic r = NaN \/ lm_test_statistic r = NInf \/
  exists s, lm_test_statistic r = Fin s /\ s <= INR (List.length z - lags).
Proof.
  intros z. destruct (Nat.leb_spec lags (List.length z)) as [Hle|Hlt].
  - rewrite (ArchLMFacts.arch_lm_test_ols gesv chi2_cdf chi2_ppf f lags Hle). cbv zeta. fold z.
    unfold ols_step.
    destruct (linalg_solve _ _ _) as [e|beta]; [destruct e; cbn; discriminate|].
    cbn [bind ret]. intros H. inversion H; subst; clear H. cbn [lm_test_statistic].
    set (m := INR (List.length z - lags)).
    assert (Hm : 0 <= m) by apply pos_INR.
    match goal with
    | |- context [r_squared ?y ?fv] =>
        destruct (ssr_tss_ratio y fv) as [->|[->|[r2 [-> Hr2]]]]; simpl
    end.
    + auto.
    + destruct (Req_dec_T m 0); [auto|]. destruct (Rlt_dec 0 m); [auto | lra].
    + right; right. exists (m * r2). split; [reflexivity|].
      rewrite <- (Rmult_1_r m) at 2. apply Rmult_le_compat_l; assumption.
  - rewrite (arch_lm_negative_dimension gesv chi2_cdf chi2_ppf f lags Hlt). discriminate.
Qed.

Lemma fit5_report :
  exists r, arch_lm_test ArchLMFacts.gesv_example ArchLMFacts.cdf_stub ArchLMFacts.ppf_stub
              (Some ArchLMFacts.fit5) 1 = ([], Some r).
Proof.
  rewrite (ArchLMFacts.arch_lm_test_ols _ _ _ ArchLMFacts.fit5 1 ltac:(simpl; lia)).
  rewrite (ArchLMFacts.ols_step_ok _ _ _ _ _ _ _ _ ArchLMFacts.fit5_solve).
  eexists. reflexivity.
Qed.

Lemma arch_lm_statistic_at_most_rows_witness :
  exists r,
    arch_lm_test ArchLMFacts.gesv_example ArchLMFacts.cdf_stub ArchLMFacts.ppf_stub
      (Some ArchLMFacts.fit5) 1 = ([], Some r) /\
    (lm_test_statistic r = NaN \/ lm_test_statistic r = NInf \/
     exists s, lm_test_statistic r = Fin s /\ s <= INR (5 - 1)).
Proof.
  destruct fit5_report as [r Hr]. exists r. split; [exact Hr|].
  exact (arch_lm_statistic_at_most_rows ArchLMFacts.gesv_example ArchLMFacts.cdf_stub
           ArchLMFacts.ppf_stub ArchLMFacts.fit5 1 [] r Hr).
Defined.

End ArchLMEdgeFacts.

(* ------------------------------------------------------------------ *)
(** ** The frame built by [calculate_returns] *)

Module ReturnsFrameFacts.
Import Returns ReturnsFacts.
Local Open Scope R_scope.

Lemma strongly_sorted_filter_seq (P : nat -> bool) (a k : nat) :
  StronglySorted lt (filter P (seq a k)).
Proof.
  revert a; induction k as [|k IH]; intros a; [constructor|].
  cbn [seq filter]. destruct (P a); [|apply IH].
  constructor; [apply IH|].
  apply Forall_forall. intros i Hi. apply filter_In in Hi.
  destruct Hi as [Hi _]. apply in_seq in Hi. lia.
Qed.

Lemma map_fst_reindex (idx : list nat) (s : series) : map fst (reindex idx s) = idx.
Proof. unfold reindex. rewrite map_map. apply map_id. Qed.

(** X7: whenever [calculate_returns] returns a frame it has the columns
    log_returns, simple_returns and price, in this order, all on one
    strictly increasing index (pandas aligns the three Series). *)
Theorem calculate_returns_shared_index (df : frame) (msgs : list string) (out : out_frame) :
  calculate_returns df = (msgs, Some out) ->
  msgs = [] /\
  map fst out = ["log_returns"%string; "simple_returns"%string; "price"%string] /\
  exists idx, StronglySorted lt idx /\ Forall (fun c => map fst (snd c) = idx) out.
Proof.
  unfold calculate_returns, calculate_returns_body.
  destruct (select_prices df) as [e|vs]; cbn [bind try_print]; intros H; inversion H; subst.
  split; [reflexivity|]. split; [reflexivity|].
  unfold returns_frame, frame_of_dict. cbv zeta.
  eexists. split.
  - apply strongly_sorted_filter_seq.
  - repeat constructor; apply map_fst_reindex.
Qed.

Lemma calculate_returns_shared_index_witness :
  [] = @nil string /\
  map fst (returns_frame [Fin 2; Fin 4; Fin 8]) =
    ["log_returns"%string; "simple_returns"%string; "price"%string] /\
  exists idx, StronglySorted lt idx /\
    Forall (fun c => map fst (snd c) = idx) (returns_frame [Fin 2; Fin 4; Fin 8]).
Proof.
  apply (calculate_returns_shared_index df_positive). reflexivity.
Defined.

Lemma reindex_skip_first (xs : list fl) :
  reindex (seq 1 (S (List.length xs))) (combine (seq 2 (List.length xs)) xs) =
  (1%nat, NaN) :: combine (seq 2 (List.length xs)) xs.
Proof.
  cbn [seq]. unfold reindex at 1. cbn [map].
  assert (H1 : assoc_idx 1 (combine (seq 2 (List.length xs)) xs) = None).
  { pose proof (has_idx_combine_seq 1 2 xs) as H. unfold has_idx in H.
    destruct (assoc_idx 1 _); [discriminate H|reflexivity]. }
  rewrite H1. f_equal. apply reindex_combine_seq.
Qed.

(** The whole frame for positive prices p, ps(1..n). *)
Lemma returns_frame_positive (p : R) (ps : list R) :
  Forall (fun x => 0 < x) (p :: ps) ->
  returns_frame (map Fin (p :: ps)) =
  [("log_returns"%string,
     combine (seq 1 (List.length ps)) (map Fin (map log_ratio (combine ps (p :: ps)))));
   ("simple_returns"%string,
     reindex (seq 1 (List.length ps))
       (skipn 1 (combine (seq 1 (List.length ps))
                  (map Fin (map (fun q => fst q / snd q - 1) (combine ps (p :: ps)))))));
   ("price"%string, combine (seq 1 (List.length ps)) (map Fin ps))].
Proof.
  intros Hpos.
  set (rs := map log_ratio (combine ps (p :: ps))).
  assert (Hlen : List.length rs = List.length ps) by apply length_rs.
  unfold returns_frame. cbv zeta.
  rewrite (log_column p ps Hpos), (simple_column p ps Hpos), price_column.
  fold rs.
  unfold frame_of_dict. cbn [map fst snd].
  rewrite (union_returns_index p ps).
  2:{ intros i. cbn [existsb].
      rewrite (has_idx_range ps i (map Fin rs)) by (rewrite length_map; exact Hlen).
      rewrite (has_idx_range ps i (map Fin ps)) by apply length_map.
      destruct ((1 <=? i) && (i <? 1 + List.length ps)) eqn:E; [reflexivity|].
      destruct (has_idx i (skipn 1 (combine (seq 1 (List.length ps)) _))) eqn:E2;
        [|reflexivity].
      apply has_idx_skipn in E2.
      rewrite has_idx_range in E2 by (rewrite length_map; apply length_ss).
      congruence. }
  2:{ left. reflexivity. }
  assert (HL : reindex (seq 1 (List.length ps)) (combine (seq 1 (List.length ps)) (map Fin rs)) =
               combine (seq 1 (List.length ps)) (map Fin rs)).
  { rewrite <- Hlen, <- (length_map Fin rs). apply reindex_combine_seq. }
  assert (HP : reindex (seq 1 (List.length ps)) (combine (seq 1 (List.length ps)) (map Fin ps)) =
               combine (seq 1 (List.length ps)) (map Fin ps)).
  { pose proof (reindex_combine_seq 1 (map Fin ps)) as E. rewrite length_map in E. exact E. }
  rewrite HL, HP. reflexivity.
Qed.

(** X8: for positive prices p(0..n), n >= 1, the frame has the rows 1..n:
    log_returns ln(p(t)/p(t-1)) and price p(t); simple_returns holds NaN
    in row 1 and p(t)/p(t-1) - 1 from row 2 on, since [simple_returns[1:]]
    drops the first simple return and pandas aligns on the index. *)
Theorem calculate_returns_positive_frame (df : frame) (p : R) (ps : list R) :
  select_prices df = inr (map Fin (p :: ps)) ->
  Forall (fun x => 0 < x) (p :: ps) ->
  ps <> [] ->
  calculate_returns df =
    ([], Some
      [("log_returns"%string,
         combine (seq 1 (List.length ps)) (map Fin (map log_ratio (combine ps (p :: ps)))));
       ("simple_returns"%string,
         (1%nat, NaN) ::
         combine (seq 2 (List.length ps - 1))
           (map Fin (tl (map (fun q => fst q / snd q - 1) (combine ps (p :: ps))))));
       ("price"%string, combine (seq 1 (List.length ps)) (map Fin ps))]).
Proof.
  intros Hsel Hpos Hne.
  unfold calculate_returns, calculate_returns_body. rewrite Hsel. cbn [bind try_print ret].
  rewrite (returns_frame_positive p ps Hpos).
  set (ss := map (fun q => fst q / snd q - 1) (combine ps (p :: ps))).
  assert (Hss : List.length ss = List.length ps) by apply length_ss.
  assert (HB : reindex (seq 1 (List.length ps))
                 (skipn 1 (combine (seq 1 (List.length ps)) (map Fin ss))) =
               (1%nat, NaN) :: combine (seq 2 (List.length ps - 1)) (map Fin (tl ss))).
  { destruct ss as [|s ss'] eqn:Es.
    - destruct ps; [contradiction|discriminate].
    - cbn [List.length] in Hss. rewrite <- Hss. cbn [tl map seq combine skipn].
      replace (S (List.length ss') - 1)%nat with (List.length ss') by lia.
      pose proof (reindex_skip_first (map Fin ss')) as E.
      rewrite length_map in E. exact E. }
  rewrite HB. reflexivity.
Qed.

Lemma calculate_returns_positive_frame_witness :
  calculate_returns df_positive =
    ([], Some
      [("log_returns"%string,
         combine (seq 1 (List.length [4; 8])) (map Fin (map log_ratio (combine [4; 8] [2; 4; 8]))));
       ("simple_returns"%string,
         (1%nat, NaN) ::
         combine (seq 2 (List.length [4; 8] - 1))
           (map Fin (tl (map (fun q => fst q / snd q - 1) (combine [4; 8] [2; 4; 8])))));
       ("price"%string, combine (seq 1 (List.length [4; 8])) (map Fin [4; 8]))]).
Proof.
  apply (calculate_returns_positive_frame df_positive 2 [4; 8]).
  - reflexivity.
  - repeat constructor; lra.
  - discriminate.
Defined.

End ReturnsFrameFacts.

(* ------------------------------------------------------------------ *)
(** ** The statistics of [DataProcessor] *)

Module StatsFacts.
Import Returns Floats Stats.
Local Open Scope R_scope.



Lemma div_nonneg (a b : R) : 0 <= a -> 0 < b -> 0 <= a / b.
Proof. apply Rle_mult_inv_pos. Qed.














(** [bool_mask] keeps entries of [s] only. *)
Lemma bool_mask_incl (s : series) (m : list bool) : incl (bool_mask s m) s.
Proof.
  intros x Hx. unfold bool_mask in Hx. apply in_map_iff in Hx.
  destruct Hx as [[y b] [<- Hy]]. apply filter_In in Hy. destruct Hy as [Hy _].
  exact (in_combine_l _ _ _ _ Hy).
Qed.

Lemma bool_mask_length (s : series) (m : list bool) :
  (List.length (bool_mask s m) <= List.length s)%nat.
Proof.
  unfold bool_mask. rewrite length_map.
  etransitivity; [apply filter_length_le|]. rewrite length_combine. lia.
Qed.


(** What [outlier_selection] selects comes from its input. *)
Lemma outlier_selection_spec (rc : series) (method : string) (t : R) (o : series) :
  outlier_selection rc method t = mret o ->
  (method = "iqr"%string \/ method = "zscore"%string) /\ incl o rc /\
  (List.length o <= List.length rc)%nat.
Proof.
  unfold outlier_selection.
  destruct (String.eqb method "iqr") eqn:Ei; [|destruct (String.eqb method "zscore") eqn:Ez].
  - intros H. injection H as <-. apply String.eqb_eq in Ei. split; [left; exact Ei|].
    split; [intros x Hx; apply filter_In in Hx; apply Hx | apply filter_length_le].
  - intros H. injection H as <-. apply String.eqb_eq in Ez. split; [right; exact Ez|].
    split; [apply bool_mask_incl | apply bool_mask_length].
  - discriminate.
Qed.

(** Values equal to [c] or NaN. *)
Definition cn (c : R) (x : fl) : Prop := x = Fin c \/ x = NaN.

Lemma insert_fl_forall (P : fl -> Prop) (x : fl) (l : list fl) :
  P x -> Forall P l -> Forall P (insert_fl x l).
Proof.
  intros Hx Hl. induction Hl as [|y l Hy Hl IH]; cbn [insert_fl]; [repeat constructor; exact Hx|].
  destruct (flt y x); repeat constructor; assumption.
Qed.

Lemma sort_fl_forall (P : fl -> Prop) (l : list fl) : Forall P l -> Forall P (sort_fl l).
Proof.
  induction 1 as [|x l Hx Hl IH]; [constructor|].
  cbn [sort_fl fold_right]. apply insert_fl_forall; assumption.
Qed.

Lemma nth_cn (c : R) (l : list fl) (i : nat) : Forall (cn c) l -> cn c (nth i l NaN).
Proof.
  intros H. destruct (Nat.lt_ge_cases i (List.length l)) as [Hi|Hi].
  - rewrite Forall_forall in H. apply H, nth_In, Hi.
  - rewrite nth_overflow by exact Hi. right. reflexivity.
Qed.

Lemma lerp_cn (c t : R) (a b : fl) : cn c a -> cn c b -> cn c (lerp a b t).
Proof.
  intros [-> | ->] [-> | ->]; unfold lerp;
    destruct (Rle_dec (1 / 2) t); cbn; try (right; reflexivity).
  - left. f_equal. ring.
  - left. f_equal. ring.
Qed.

Lemma quantile_cn (c : R) (xs : list fl) (num den : nat) :
  Forall (cn c) xs -> cn c (quantile xs num den).
Proof.
  intros H. pose proof (sort_fl_forall _ _ H) as Hs. unfold quantile. cbv zeta.
  destruct (_ =? 0)%nat; [right; reflexivity|].
  destruct (Rle_dec _ _); apply lerp_cn; apply nth_cn; exact Hs.
Qed.

Lemma flt_cn (c : R) (a b : fl) : cn c a -> cn c b -> flt a b = false.
Proof.
  intros [-> | ->] [-> | ->]; cbn; try reflexivity.
  destruct (Rlt_dec c c); [lra|reflexivity].
Qed.

Lemma filter_cn_empty (c : R) (lo hi : fl) (l : series) :
  cn c lo -> cn c hi -> Forall (fun p => cn c (snd p)) l ->
  filter (fun p => flt (snd p) lo || flt hi (snd p)) l = [].
Proof.
  intros Hlo Hhi Hl. induction Hl as [|p l Hp Hl IH]; [reflexivity|]. cbn [filter].
  rewrite (flt_cn c _ _ Hp Hlo), (flt_cn c _ _ Hhi Hp). exact IH.
Qed.



End StatsFacts.

Module StatsClaims.
Import Returns Floats Stats StatsFacts.
Local Open Scope R_scope.

(** X9: [detect_outliers] with a method other than 'iqr' and 'zscore' prints
    "Error detecting outliers: Method must be 'iqr' or 'zscore'" and returns
    None, whatever the input. *)
Theorem detect_outliers_unknown_method (returns : series) (method : string) (t : R) :
  method <> "iqr"%string -> method <> "zscore"%string ->
  detect_outliers returns method t =
    (["Error detecting outliers: Method must be 'iqr' or 'zscore'"%string], None).
Proof.
  intros Hi Hz. unfold detect_outliers, detect_outliers_body, outlier_selection.
  apply String.eqb_neq in Hi, Hz. rewrite Hi, Hz. reflexivity.
Qed.

Lemma detect_outliers_unknown_method_witness :
  detect_outliers [(0%nat, Fin 1)] "mad" 3 =
    (["Error detecting outliers: Method must be 'iqr' or 'zscore'"%string], None).
Proof. apply detect_outliers_unknown_method; discriminate. Defined.

(** X10: when the Series has no non-NaN value, both methods reach
    [len(outliers) / len(returns_clean)] with a zero length: the
    ZeroDivisionError is printed as "Error detecting outliers: division by
    zero" and None is returned. *)
Theorem detect_outliers_no_values (returns : series) (method : string) (t : R) :
  dropna returns = [] ->
  method = "iqr"%string \/ method = "zscore"%string ->
  detect_outliers returns method t = (["Error detecting outliers: division by zero"%string], None).
Proof.
  intros Hd Hm. unfold detect_outliers, detect_outliers_body. rewrite Hd.
  destruct Hm as [-> | ->]; reflexivity.
Qed.

Lemma detect_outliers_no_values_witness :
  detect_outliers [(0%nat, NaN); (1%nat, NaN)] "zscore" 3 =
    (["Error detecting outliers: division by zero"%string], None).
Proof. apply detect_outliers_no_values; [reflexivity | right; reflexivity]. Defined.

(** X11: a report returned by [detect_outliers] comes from method 'iqr' or
    'zscore' on a Series with a non-NaN value; nothing is printed; the
    outliers are entries of the NaN-free Series, at most as many, their
    indices are listed, and the percentage is len(outliers) / len(clean) * 100,
    between 0 and 100. *)
Theorem detect_outliers_report (returns : series) (method : string) (t : R)
  (msgs : list string) (r : OutlierReport) :
  detect_outliers returns method t = (msgs, Some r) ->
  msgs = [] /\ (method = "iqr"%string \/ method = "zscore"%string) /\
  dropna returns <> [] /\
  incl (outliers r) (dropna returns) /\
  num_outliers r = List.length (outliers r) /\
  outlier_indices r = map fst (outliers r) /\
  (num_outliers r <= List.length (dropna returns))%nat /\
  outlier_percentage r = INR (num_outliers r) / INR (List.length (dropna returns)) * 100 /\
  0 <= outlier_percentage r <= 100.
Proof.
  unfold detect_outliers, detect_outliers_body.
  destruct (outlier_selection (dropna returns) method t) as [e|o] eqn:Eo; [discriminate|].
  cbn [mbind]. unfold py_truediv.
  destruct (List.length (dropna returns) =? 0)%nat eqn:E0; [discriminate|].
  cbn [mret try_print']. intros H. injection H as <- <-. cbn.
  destruct (outlier_selection_spec _ _ _ _ Eo) as [Hm [Hincl Hle]].
  apply Nat.eqb_neq in E0.
  assert (Hne : dropna returns <> []) by (intros E; rewrite E in E0; apply E0; reflexivity).
  do 8 (split; [first [reflexivity | assumption] |]).
  assert (Hp : 0 < INR (List.length (dropna returns))) by (apply lt_0_INR; lia).
  apply le_INR in Hle.
  pose proof (pos_INR (List.length o)).
  split.
  - apply Rmult_le_pos; [apply div_nonneg|]; lra.
  - apply (Rmult_le_reg_r (INR (List.length (dropna returns)))); [exact Hp|].
    unfold Rdiv. replace (INR (List.length o) * / INR (List.length (dropna returns)) * 100 *
                          INR (List.length (dropna returns)))
      with (INR (List.length o) * 100) by (field; lra). lra.
Qed.

Lemma detect_outliers_report_witness :
  exists msgs r, detect_outliers [(0%nat, Fin 1); (1%nat, NaN)] "iqr" 3 = (msgs, Some r) /\
  msgs = [] /\ ("iqr"%string = "iqr"%string \/ "iqr"%string = "zscore"%string) /\
  dropna [(0%nat, Fin 1); (1%nat, NaN)] <> [] /\
  incl (outliers r) (dropna [(0%nat, Fin 1); (1%nat, NaN)]) /\
  num_outliers r = List.length (outliers r) /\
  outlier_indices r = map fst (outliers r) /\
  (num_outliers r <= List.length (dropna [(0%nat, Fin 1); (1%nat, NaN)]))%nat /\
  outlier_percentage r =
    INR (num_outliers r) / INR (List.length (dropna [(0%nat, Fin 1); (1%nat, NaN)])) * 100 /\
  0 <= outlier_percentage r <= 100.
Proof.
  destruct (detect_outliers [(0%nat, Fin 1); (1%nat, NaN)] "iqr" 3) as [msgs [r|]] eqn:E.
  - exists msgs, r. split; [reflexivity|].
    exact (detect_outliers_report _ _ _ _ _ E).
  - exfalso. unfold detect_outliers, detect_outliers_body in E. simpl in E. discriminate E.
Defined.

(** X12: when the non-NaN values of the Series are all equal to one number,
    the 'iqr' method finds no outlier: the report has no outliers and the
    percentage 0 (quartiles and bounds all equal that number). *)
Theorem detect_outliers_iqr_constant (returns : series) (c t : R) :
  Forall (fun p => snd p = Fin c \/ snd p = NaN) returns ->
  dropna returns <> [] ->
  exists r, detect_outliers returns "iqr" t = ([], Some r) /\
    outliers r = [] /\ num_outliers r = 0%nat /\ outlier_percentage r = 0.
Proof.
  intros Hc Hne.
  assert (Hcl : Forall (fun p => cn c (snd p)) (dropna returns)).
  { apply Forall_forall. intros p Hp. unfold dropna in Hp. apply filter_In in Hp.
    rewrite Forall_forall in Hc. apply Hc, Hp. }
  assert (Hv : Forall (cn c) (values (dropna returns))).
  { unfold values. apply Forall_map, Hcl. }
  pose proof (quantile_cn c _ 1 4 Hv) as HQ1.
  pose proof (quantile_cn c _ 3 4 Hv) as HQ3.
  set (Q1 := quantile (values (dropna returns)) 1 4) in *.
  set (Q3 := quantile (values (dropna returns)) 3 4) in *.
  assert (Hlo : cn c (fsub Q1 (fmul (Fin (3 / 2)) (fsub Q3 Q1)))).
  { destruct HQ1 as [-> | ->], HQ3 as [-> | ->]; cbn; try (right; reflexivity).
    left. f_equal. ring. }
  assert (Hhi : cn c (fadd Q3 (fmul (Fin (3 / 2)) (fsub Q3 Q1)))).
  { destruct HQ1 as [-> | ->], HQ3 as [-> | ->]; cbn; try (right; reflexivity).
    left. f_equal. ring. }
  assert (Hsel : outlier_selection (dropna returns) "iqr" t = mret []).
  { unfold outlier_selection. cbn [String.eqb Ascii.eqb Bool.eqb]. cbv zeta.
    fold Q1 Q3. f_equal. exact (filter_cn_empty c _ _ _ Hlo Hhi Hcl). }
  unfold detect_outliers, detect_outliers_body. rewrite Hsel. cbn [mbind].
  unfold py_truediv. destruct (List.length (dropna returns) =? 0)%nat eqn:E0.
  - apply Nat.eqb_eq in E0. destruct (dropna returns); [contradiction|discriminate].
  - eexists. split; [reflexivity|]. cbn. split; [reflexivity|]. split; [reflexivity|].
    unfold Rdiv. ring.
Qed.

Lemma detect_outliers_iqr_constant_witness :
  exists r, detect_outliers [(0%nat, Fin 2); (1%nat, NaN); (2%nat, Fin 2)] "iqr" 3 = ([], Some r) /\
    outliers r = [] /\ num_outliers r = 0%nat /\ outlier_percentage r = 0.
Proof.
  apply (detect_outliers_iqr_constant _ 2 3).
  - apply Forall_forall. intros p Hp.
    destruct Hp as [<-|[<-|[<-|[]]]]; [left|right|left]; reflexivity.
  - discriminate.
Defined.



End StatsClaims.

(* ------------------------------------------------------------------ *)
(** ** [calculate_returns_statistics] and [calculate_volatility_measures] *)

Module MomentFacts.
Import Returns Floats Stats StatsFacts.
Local Open Scope R_scope.

Lemma fdiv_nan_r (a : fl) : fdiv a NaN = NaN.
Proof. destruct a; reflexivity. Qed.

Lemma fdiv_zero_zero : fdiv (Fin 0) (Fin 0) = NaN.
Proof. unfold fdiv. destruct (Req_EM_T 0 0) as [_|n]; [reflexivity|contradiction n; reflexivity]. Qed.

End MomentFacts.

Module MomentClaims.
Import Returns Floats Stats StatsFacts MomentFacts.
Local Open Scope R_scope.

(** X14: when [calculate_returns_statistics] returns a dict, nothing was
    printed and count is the number of non-NaN values; with at most one
    value, std, annual_std and sharpe_ratio are NaN (pandas' ddof = 1); with
    none, mean, min, max and annual_mean are NaN as well. *)
Theorem returns_statistics_degenerate (skew kurtosis : list fl -> PyM fl)
  (jarque_bera : list fl -> PyM (fl * fl)) (returns : series)
  (msgs : list string) (s : ReturnsStats) :
  calculate_returns_statistics skew kurtosis jarque_bera returns = (msgs, Some s) ->
  msgs = [] /\ st_count s = List.length (dropna returns) /\
  ((st_count s <= 1)%nat ->
     st_std s = NaN /\ st_annual_std s = NaN /\ st_sharpe_ratio s = NaN) /\
  (st_count s = 0%nat ->
     st_mean s = NaN /\ st_min s = NaN /\ st_max s = NaN /\ st_annual_mean s = NaN).
Proof.
  unfold calculate_returns_statistics, calculate_returns_statistics_body. cbv zeta.
  destruct (skew (values (dropna returns))) as [e|sk]; [discriminate|].
  destruct (kurtosis (values (dropna returns))) as [e|ku]; [discriminate|].
  destruct (jarque_bera (values (dropna returns))) as [e|jb]; [discriminate|].
  cbn [lift mbind mret try_print']. intros H. injection H as <- <-.
  cbn [st_count st_std st_annual_std st_sharpe_ratio st_mean st_min st_max st_annual_mean].
  split; [reflexivity|]. split; [unfold values; apply length_map|].
  assert (Hstd : (List.length (values (dropna returns)) <= 1)%nat ->
                 pd_std (values (dropna returns)) = NaN).
  { intros Hc. unfold pd_std, pd_var.
    destruct (List.length (values (dropna returns)) <=? 1)%nat eqn:E;
      [reflexivity | apply Nat.leb_gt in E; lia]. }
  split.
  - intros Hc. rewrite (Hstd Hc). split; [reflexivity|]. split; [reflexivity|].
    apply fdiv_nan_r.
  - intros Hc. destruct (values (dropna returns)); [|discriminate].
    unfold mean_fl. cbn [fsum fold_right List.length INR].
    rewrite fdiv_zero_zero. repeat split; reflexivity.
Qed.

Definition scipy_nan : list fl -> PyM fl := fun _ => ret NaN.
Definition jarque_bera_nan : list fl -> PyM (fl * fl) := fun _ => ret (NaN, NaN).

Lemma returns_statistics_degenerate_witness :
  exists msgs s,
    calculate_returns_statistics scipy_nan scipy_nan jarque_bera_nan
      [(0%nat, NaN); (1%nat, Fin 1)] = (msgs, Some s) /\
    msgs = [] /\ st_count s = List.length (dropna [(0%nat, NaN); (1%nat, Fin 1)]) /\
    ((st_count s <= 1)%nat ->
       st_std s = NaN /\ st_annual_std s = NaN /\ st_sharpe_ratio s = NaN) /\
    (st_count s = 0%nat ->
       st_mean s = NaN /\ st_min s = NaN /\ st_max s = NaN /\ st_annual_mean s = NaN).
Proof.
  destruct (calculate_returns_statistics scipy_nan scipy_nan jarque_bera_nan
              [(0%nat, NaN); (1%nat, Fin 1)]) as [msgs [s|]] eqn:E.
  - exists msgs, s. split; [reflexivity|]. exact (returns_statistics_degenerate _ _ _ _ _ _ E).
  - exfalso. unfold calculate_returns_statistics, calculate_returns_statistics_body in E.
    simpl in E. discriminate E.
Defined.

(** X16: when the Series has no non-NaN value (and pandas' [ewm] gives an
    empty Series for an empty one), [.iloc[-1]] fails: the call prints
    "Error calculating volatility measures: single positional indexer is
    out-of-bounds" and returns None. *)
Theorem volatility_measures_no_values (ewm_std : list fl -> list fl) (returns : series) :
  ewm_std [] = [] ->
  dropna returns = [] ->
  calculate_volatility_measures ewm_std returns =
    (["Error calculating volatility measures: single positional indexer is out-of-bounds"%string],
     None).
Proof.
  intros He Hd. unfold calculate_volatility_measures, calculate_volatility_measures_body.
  cbv zeta. rewrite Hd. cbn [values map]. rewrite He. reflexivity.
Qed.

Definition ewm_identity : list fl -> list fl := fun xs => xs.

Lemma volatility_measures_no_values_witness :
  calculate_volatility_measures ewm_identity [(0%nat, NaN)] =
    (["Error calculating volatility measures: single positional indexer is out-of-bounds"%string],
     None).
Proof. apply volatility_measures_no_values; reflexivity. Defined.

End MomentClaims.

(* ------------------------------------------------------------------ *)
(** ** [fetch_stock_data] *)

Module FetchFacts.
Import Returns Fetch.

(** X18: when the download returns fewer than 50 rows, [fetch_stock_data]
    prints "Error fetching data for T: " followed by "No data found for
    ticker T" (no row) or "Insufficient data for T. Found k observations,
    need at least 50." (k rows), and returns None. *)
Theorem fetch_stock_data_short (history : string -> PyM frame) (ticker : string) (data : frame) :
  history ticker = inr data ->
  (frame_len data < 50)%nat ->
  fetch_stock_data history ticker =
    ([(("Error fetching data for " ++ ticker ++ ": ") ++
       (if (frame_len data =? 0)%nat then "No data found for ticker " ++ ticker
        else "Insufficient data for " ++ ticker ++ ". Found " ++
             str_nat (frame_len data) ++ " observations, need at least 50."))%string], None).
Proof.
  intros Hh Hl. unfold fetch_stock_data, fetch_stock_data_body. rewrite Hh. cbn [bind].
  unfold frame_empty. destruct (frame_len data =? 0)%nat; [reflexivity|].
  apply Nat.ltb_lt in Hl. rewrite Hl. reflexivity.
Qed.

Definition history_10 : string -> PyM frame :=
  fun _ => ret [("Close"%string, repeat (Fin 1) 10)].

Lemma fetch_stock_data_short_witness :
  fetch_stock_data history_10 "SPY" =
    (["Error fetching data for SPY: Insufficient data for SPY. Found 10 observations, need at least 50."%string],
     None).
Proof.
  rewrite (fetch_stock_data_short history_10 "SPY" [("Close"%string, repeat (Fin 1) 10)]);
    [reflexivity | reflexivity | apply Nat.ltb_lt; reflexivity].
Defined.

Lemma frame_dropna_columns (df : frame) (c : string * list fl) :
  In c (frame_dropna df) ->
  Forall (fun x => is_nan x = false) (snd c) /\
  List.length (snd c) = List.length (filter (row_complete df) (seq 0 (frame_len df))).
Proof.
  unfold frame_dropna. intros Hc. apply in_map_iff in Hc. destruct Hc as [c0 [<- Hc0]].
  cbn [snd]. split; [|apply length_map].
  apply Forall_forall. intros x Hx. apply in_map_iff in Hx. destruct Hx as [i [<- Hi]].
  apply filter_In in Hi. destruct Hi as [_ Hi]. unfold row_complete in Hi.
  rewrite forallb_forall in Hi. specialize (Hi c0 Hc0).
  destruct (is_nan (nth i (snd c0) NaN)); [discriminate|reflexivity].
Qed.

(** X19: when the download returns at least 50 rows, [fetch_stock_data]
    prints nothing and returns the rows without NaN: the same column names,
    no NaN left, all columns of one length, at most the downloaded one (it
    may fall below 50, which is not checked again). *)
Theorem fetch_stock_data_clean (history : string -> PyM frame) (ticker : string) (data : frame) :
  history ticker = inr data ->
  (50 <= frame_len data)%nat ->
  exists d, fetch_stock_data history ticker = ([], Some d) /\
    map fst d = map fst data /\
    Forall (fun c => Forall (fun x => is_nan x = false) (snd c)) d /\
    Forall (fun c => List.length (snd c) = frame_len d) d /\
    (frame_len d <= frame_len data)%nat.
Proof.
  intros Hh Hl. exists (frame_dropna data).
  split.
  - unfold fetch_stock_data, fetch_stock_data_body. rewrite Hh. cbn [bind].
    unfold frame_empty. destruct (frame_len data =? 0)%nat eqn:E0;
      [apply Nat.eqb_eq in E0; lia|].
    destruct (frame_len data <? 50)%nat eqn:E1; [apply Nat.ltb_lt in E1; lia|].
    reflexivity.
  - assert (Hfl : frame_len (frame_dropna data) =
                  List.length (filter (row_complete data) (seq 0 (frame_len data)))).
    { destruct data as [|c0 rest]; [cbn in Hl; lia|].
      unfold frame_dropna at 1. cbn [map frame_len snd]. apply length_map. }
    split; [unfold frame_dropna; rewrite map_map; reflexivity|].
    split; [apply Forall_forall; intros c Hc; apply (frame_dropna_columns data c Hc)|].
    split.
    + apply Forall_forall. intros c Hc. rewrite Hfl. apply (frame_dropna_columns data c Hc).
    + rewrite Hfl. rewrite <- (length_seq (frame_len data) 0) at 2. apply filter_length_le.
Qed.

Definition history_nan_row : string -> PyM frame :=
  fun _ => ret [("Close"%string, NaN :: repeat (Fin 1) 49)].

Lemma fetch_stock_data_clean_witness :
  exists d, fetch_stock_data history_nan_row "SPY" = ([], Some d) /\
    map fst d = map fst [("Close"%string, NaN :: repeat (Fin 1) 49)] /\
    Forall (fun c => Forall (fun x => is_nan x = false) (snd c)) d /\
    Forall (fun c => List.length (snd c) = frame_len d) d /\
    (frame_len d <= frame_len [("Close"%string, NaN :: repeat (Fin 1) 49)])%nat.
Proof.
  apply fetch_stock_data_clean; [reflexivity | apply Nat.leb_le; reflexivity].
Defined.

End FetchFacts.

(* ------------------------------------------------------------------ *)
(** ** [main]: from the download to the fit *)

Module AppFacts.
Import Returns Garch Fetch App.

Lemma fetch_stock_data_result (history : string -> PyM frame) (ticker : string) :
  snd (fetch_stock_data history ticker) = None \/
  exists data, history ticker = inr data /\
               snd (fetch_stock_data history ticker) = Some (frame_dropna data).
Proof.
  unfold fetch_stock_data, fetch_stock_data_body.
  destruct (history ticker) as [e|data]; [left; reflexivity|]. cbn [bind].
  destruct (frame_empty data); [left; reflexivity|].
  destruct (frame_len data <? 50)%nat; [left; reflexivity|].
  right. exists data. split; reflexivity.
Qed.

(** X20: for a non-empty ticker, when the download fails or leaves fewer
    than 100 rows without NaN, [main] stops with "Insufficient data for T.
    Please try a different ticker or date range." after the lines printed
    by [fetch_stock_data]: in particular a download of 50 to 99 complete
    rows passes [fetch_stock_data] and is rejected here. *)
Theorem app_analysis_insufficient (lib : ArchLib) (history : string -> PyM frame)
  (ticker : string) (h : nat) :
  ticker <> ""%string ->
  (forall data, history ticker = inr data -> (frame_len (frame_dropna data) < 100)%nat) ->
  app_analysis lib history ticker h =
    (fst (fetch_stock_data history ticker), StError (insufficient_app_msg ticker)).
Proof.
  intros Ht Hd. unfold app_analysis. apply String.eqb_neq in Ht. rewrite Ht.
  cbv zeta.
  destruct (fetch_stock_data_result history ticker) as [E|[data [Eh E]]]; rewrite E.
  - cbn [app_after_fetch fst snd]. rewrite app_nil_r. reflexivity.
  - unfold app_after_fetch. pose proof (Hd data Eh) as Hlt. apply Nat.ltb_lt in Hlt. rewrite Hlt.
    cbn [fst snd]. rewrite app_nil_r. reflexivity.
Qed.

Definition history_60 : string -> PyM frame :=
  fun _ => ret [("Close"%string, repeat (Fin 1) 60)].

Lemma app_analysis_insufficient_witness :
  app_analysis vt_lib history_60 "SPY" 5 =
    (fst (fetch_stock_data history_60 "SPY"), StError (insufficient_app_msg "SPY")).
Proof.
  apply app_analysis_insufficient; [discriminate|].
  intros data Hd. injection Hd as <-. apply Nat.ltb_lt. reflexivity.
Defined.

Lemma col_lookup_head {A : Type} (name : string) (a : A) (rest : list (string * A)) :
  col_lookup name ((name, a) :: rest) = Some a.
Proof. unfold col_lookup. cbn [find fst]. rewrite String.eqb_refl. reflexivity. Qed.

(** X21: on a downloaded frame of at least 100 rows whose selected price
    column holds positive prices p(0..n), [main] prints nothing before the
    fit and fits the GARCH(1,1) model on exactly the n log returns
    ln(p(t)/p(t-1)), none of them NaN. *)
Theorem app_after_fetch_fits_log_returns (lib : ArchLib) (ticker : string) (sd : frame)
  (p : R) (ps : list R) (h : nat) :
  select_prices sd = inr (map Fin (p :: ps)) ->
  Forall (fun x => (0 < x)%R) (p :: ps) ->
  (100 <= frame_len sd)%nat ->
  app_after_fetch lib ticker (Some sd) h =
    app_fit lib (map Fin (map ReturnsFacts.log_ratio (combine ps (p :: ps)))) h.
Proof.
  intros Hsel Hpos Hl. unfold app_after_fetch.
  destruct (frame_len sd <? 100)%nat eqn:E; [apply Nat.ltb_lt in E; lia|].
  unfold calculate_returns, calculate_returns_body. rewrite Hsel.
  cbn [bind ret try_print fst snd].
  rewrite (ReturnsFrameFacts.returns_frame_positive p ps Hpos), col_lookup_head.
  unfold values. rewrite ReturnsFacts.map_snd_combine
    by (rewrite length_seq, length_map; symmetry; apply ReturnsFacts.length_rs).
  cbn [app]. destruct (app_fit _ _ _). reflexivity.
Qed.

Definition frame_100 : frame := [("Close"%string, map Fin (repeat 1%R 100))].

Lemma app_after_fetch_fits_log_returns_witness :
  app_after_fetch vt_lib "SPY" (Some frame_100) 5 =
    app_fit vt_lib (map Fin (map ReturnsFacts.log_ratio
                               (combine (repeat 1%R 99) (1%R :: repeat 1%R 99)))) 5.
Proof.
  apply app_after_fetch_fits_log_returns.
  - reflexivity.
  - constructor; [lra|]. apply Forall_forall. intros x Hx. apply repeat_spec in Hx. lra.
  - apply Nat.leb_le. reflexivity.
Defined.

End AppFacts.
